(** * tap-slack: the Slack client wrapper and its retry policy

    A shallow embedding of [tap_slack/client.py].  Every method of
    [SlackClient] is one call of the Slack SDK's web client, decorated with
    [backoff.on_exception(backoff.constant, (SlackApiError, TimeoutError),
    max_tries=BACKOFF_MAX_TRIES, jitter=None, giveup=wait,
    interval=BACKOFF_INTERVAL)].

    The program is effectful: it calls a remote service, sleeps and logs.
    Computations are state-passing functions over a [world] that records the
    chronological trace of observable events; the remote service is a
    [script] giving the outcome of the n-th remote call. *)

From Stdlib Require Import ZArith QArith Bool List Ascii String DecimalString Lia.
From stdpp Require Import base option list gmap strings.
Import ListNotations.

Set Warnings "-register-all".

Local Open Scope string_scope.
Local Open Scope list_scope.

(** ** Python values *)

(** The JSON-like values carried by a Slack response body and passed as
    keyword arguments. *)
Inductive value : Type :=
| VNone
| VBool (b : bool)
| VInt (z : Z)
| VStr (s : string)
| VList (l : list value)
| VDict (d : list (string * value)).

(** [v == s] for a string literal [s]: only a string equal to [s] compares
    equal. *)
Definition value_eq_str (v : value) (s : string) : bool :=
  match v with
  | VStr s' => bool_decide (s' = s)
  | _ => false
  end.

(** ** Slack responses and exceptions *)

(** [SlackResponse]: [data] is the decoded body, [headers] the HTTP headers. *)
Record SlackResponse : Type := mkResponse {
  data : gmap string value;
  headers : gmap string string
}.

(** [dict.get(key, default)]. *)
Definition dict_get {A : Type} (m : gmap string A) (key : string) (dflt : A) : A :=
  default dflt (m !! key).

(** The exceptions that flow through the client.  [SlackApiError] carries
    the response ([err.response]); [ValueError], [OverflowError] and
    [OSError] are what [int] and [time.sleep] raise; [OtherError] stands for
    any exception class that is none of the above. *)
Inductive exn : Type :=
| SlackApiError (response : SlackResponse)
| TimeoutError
| ValueError (msg : string)
| OverflowError (msg : string)
| OSError (msg : string)
| OtherError (name : string).

(** What a method hands back: a [SlackResponse] object as the SDK returned
    it, or a plain Python value. *)
Inductive retval : Type :=
| RResponse (r : SlackResponse)
| RValue (v : value).

(** ** Events, worlds and the computation monad *)

Inductive event : Type :=
| ECall (method : string) (kwargs : list (string * value))
    (* self.webclient.<method>(kwargs) *)
| ESleep (secs : Q)
    (* time.sleep(secs) *)
| EWarning (msg : string)
    (* LOGGER.warning(msg) *)
| EOnBackoff (tries : nat) (secs : Q)
    (* backoff's on_backoff handlers: an INFO record on logger 'backoff' *)
| EOnGiveup (tries : nat).
    (* backoff's on_giveup handlers: an ERROR record on logger 'backoff' *)

Record world : Type := mkWorld {
  calls : nat;          (* remote calls made so far *)
  trace : list event    (* events so far, oldest first *)
}.

Definition init : world := mkWorld 0 [].

Inductive result (A : Type) : Type :=
| Return (a : A)
| Raise (e : exn)
| OutOfFuel.
Arguments Return {A} a.
Arguments Raise {A} e.
Arguments OutOfFuel {A}.

Definition M (A : Type) : Type := world -> result A * world.

Definition ret {A : Type} (a : A) : M A := fun w => (Return a, w).

Definition raise {A : Type} (e : exn) : M A := fun w => (Raise e, w).

Definition bind {A B : Type} (m : M A) (k : A -> M B) : M B :=
  fun w =>
    match m w with
    | (Return a, w') => k a w'
    | (Raise e, w') => (Raise e, w')
    | (OutOfFuel, w') => (OutOfFuel, w')
    end.

(** [try: m except <handles> as e: h e]. *)
Definition try_except {A : Type} (m : M A) (handles : exn -> bool)
    (h : exn -> M A) : M A :=
  fun w =>
    match m w with
    | (Raise e, w') => if handles e then h e w' else (Raise e, w')
    | other => other
    end.

#[global] Instance M_ret : MRet M := @ret.
#[global] Instance M_bind : MBind M := fun A B k m => bind m k.

(** The world after one more event. *)
Definition record (e : event) (w : world) : world :=
  mkWorld (calls w) (trace w ++ [e]).

Definition emit (e : event) : M unit :=
  fun w => (Return tt, record e w).

(** ** Library primitives *)

(** *** [time.sleep]

    The interpreter turns the length into a signed 64-bit count of
    nanoseconds, rounding away from zero, and raises [OverflowError] when it
    does not fit; it raises [ValueError] for a negative count.  The system
    call then refuses ([OSError], EINVAL) a deadline whose seconds reach
    [KTIME_SEC_MAX]: the deadline is the length added to the monotonic
    clock's reading, which is not modelled and taken as zero, so the last
    lengths below the bound (as many seconds as the machine has been up),
    which a real clock refuses as well, count as slept here.  Nothing below
    is stated for a length beyond [SLEEP_SAFE]. *)
Definition NS_PER_SEC : Z := 1000000000.
Definition PYTIME_MAX : Z := 9223372036854775807.
Definition PYTIME_MIN : Z := -9223372036854775808.
Definition KTIME_SEC_MAX : Z := 9223372036.

(** A length every platform of the interpreter sleeps: its milliseconds fit
    an unsigned 32-bit count (49 days). *)
Definition SLEEP_SAFE : Z := 4294967.

Definition to_ns (secs : Q) : Z :=
  let n := (Qnum secs * NS_PER_SEC)%Z in
  let d := Zpos (Qden secs) in
  if (0 <=? n)%Z then ((n + d - 1) / d)%Z else (- ((- n + d - 1) / d))%Z.

(** The exception [time.sleep(secs)] raises, if any. *)
Definition sleep_error (secs : Q) : option exn :=
  let ns := to_ns secs in
  if ((ns <? PYTIME_MIN) || (PYTIME_MAX <? ns))%Z
  then Some (OverflowError "timestamp too large to convert to C _PyTime_t")
  else if (ns <? 0)%Z
  then Some (ValueError "sleep length must be non-negative")
  else if (KTIME_SEC_MAX * NS_PER_SEC <=? ns)%Z
  then Some (OSError "[Errno 22] Invalid argument")
  else None.

Definition time_sleep (secs : Q) : M unit :=
  match sleep_error secs with
  | Some e => raise e
  | None => emit (ESleep secs)
  end.

(** [LOGGER.warning(msg)]. *)
Definition LOGGER_warning (msg : string) : M unit := emit (EWarning msg).

(** *** [repr] of a string

    A string is a sequence of code points below 256.  [repr] quotes with an
    apostrophe, or with a double quote when the string holds an apostrophe
    and no double quote; it escapes the backslash, the quote, tab, line feed
    and carriage return, and writes the other unprintable code points in
    hexadecimal. *)
Definition backslash : ascii := ascii_of_nat 92.
Definition double_quote : ascii := ascii_of_nat 34.
Definition apostrophe : ascii := ascii_of_nat 39.

Definition hex_digit (n : nat) : ascii :=
  List.nth n (list_ascii_of_string "0123456789abcdef") "0"%char.

Definition printable (c : ascii) : bool :=
  let n := nat_of_ascii c in
  (Nat.leb 32 n && Nat.leb n 126) || (Nat.leb 161 n && Nat.leb n 172)
  || (Nat.leb 174 n && Nat.leb n 255).

Definition repr_char (quote c : ascii) : string :=
  let n := nat_of_ascii c in
  if Ascii.eqb c quote || Ascii.eqb c backslash then String backslash (String c "")
  else if Nat.eqb n 9 then String backslash "t"
  else if Nat.eqb n 10 then String backslash "n"
  else if Nat.eqb n 13 then String backslash "r"
  else if printable c then String c ""
  else String backslash
         (String "x" (String (hex_digit (n / 16)) (String (hex_digit (n mod 16)) ""))).

Definition has_char (c : ascii) (s : string) : bool :=
  List.existsb (Ascii.eqb c) (list_ascii_of_string s).

Definition repr (s : string) : string :=
  let quote :=
    if has_char apostrophe s && negb (has_char double_quote s)
    then double_quote else apostrophe in
  String quote
    (String.concat "" (List.map (repr_char quote) (list_ascii_of_string s))
       ++ String quote "").

(** *** [int] of a string, base 10

    Unicode white space above ASCII (next line, no-break space) is first
    turned into a space and any other code point from 127 on into a question
    mark.  Then: white space, one optional sign, digits in which single
    underscores may separate digits, white space.  More than 4300 digits are
    refused, before what follows the digits is looked at. *)
Definition to_ascii_space (c : ascii) : ascii :=
  let n := nat_of_ascii c in
  if Nat.ltb n 127 then c
  else if Nat.eqb n 133 || Nat.eqb n 160 then " "%char
  else "?"%char.

Definition is_space (c : ascii) : bool :=
  let n := nat_of_ascii c in
  (Nat.leb 9 n && Nat.leb n 13) || Nat.eqb n 32.

Definition digit_of (c : ascii) : option Z :=
  let n := nat_of_ascii c in
  if Nat.leb 48 n && Nat.leb n 57 then Some (Z.of_nat (n - 48)) else None.

Fixpoint skip_space (cs : list ascii) : list ascii :=
  match cs with
  | c :: cs' => if is_space c then skip_space cs' else cs
  | [] => []
  end.

(** The digits from the head of [cs]: their value, their number, and what
    follows them; nothing when two underscores meet or one ends the digits. *)
Fixpoint scan_digits (after_underscore : bool) (acc : Z) (digits : nat)
    (cs : list ascii) : option (Z * nat * list ascii) :=
  match cs with
  | c :: cs' =>
      match digit_of c with
      | Some d => scan_digits false (10 * acc + d) (S digits) cs'
      | None =>
          if Ascii.eqb c "_"
          then if after_underscore then None
               else scan_digits true acc digits cs'
          else if after_underscore then None else Some (acc, digits, cs)
      end
  | [] => if after_underscore then None else Some (acc, digits, [])
  end.

Definition MAX_STR_DIGITS : nat := 4300.

Inductive int_error : Type :=
| InvalidLiteral
| TooManyDigits (digits : nat).

Definition parse_digits (sign : Z) (cs : list ascii) : Z + int_error :=
  match cs with
  | c :: _ =>
      if Ascii.eqb c "_" then inr InvalidLiteral
      else
        match scan_digits false 0 0 cs with
        | None => inr InvalidLiteral
        | Some (acc, digits, rest) =>
            if Nat.eqb digits 0 then inr InvalidLiteral
            else if Nat.ltb MAX_STR_DIGITS digits then inr (TooManyDigits digits)
            else match skip_space rest with
                 | [] => inl (sign * acc)%Z
                 | _ => inr InvalidLiteral
                 end
        end
  | [] => inr InvalidLiteral
  end.

Definition parse_int (s : string) : Z + int_error :=
  match skip_space (List.map to_ascii_space (list_ascii_of_string s)) with
  | c :: ds =>
      if Ascii.eqb c "-" then parse_digits (-1) ds
      else if Ascii.eqb c "+" then parse_digits 1 ds
      else parse_digits 1 (c :: ds)
  | [] => inr InvalidLiteral
  end.

(** The value [int(s)] returns, when it returns. *)
Definition int_literal (s : string) : option Z :=
  match parse_int s with
  | inl z => Some z
  | inr _ => None
  end.

(** The message of the [ValueError]; the literal is shown by at most 200
    characters of its [repr]. *)
Definition int_message (s : string) (err : int_error) : string :=
  match err with
  | InvalidLiteral =>
      "invalid literal for int() with base 10: " ++ substring 0 200 (repr s)
  | TooManyDigits digits =>
      "Exceeds the limit (4300 digits) for integer string conversion: value has "
        ++ NilEmpty.string_of_uint (Nat.to_uint digits)
        ++ " digits; use sys.set_int_max_str_digits() to increase the limit"
  end.

Definition int (s : string) : M Z :=
  match parse_int s with
  | inl z => ret z
  | inr err => raise (ValueError (int_message s err))
  end.

(** ** The [backoff] package

    [backoff.on_exception] in its synchronous form, as the client
    configures it (no [max_time], [jitter=None], default handlers).  The
    package is a dependency, not part of the repository; its retry loop has
    this shape in the 1.x and 2.x releases alike.  The decorated function
    runs
<<
      tries = 0
      while True:
          tries += 1
          try:
              ret = target(args)
          except exception as e:
              if giveup(e) or tries == max_tries:
                  on_giveup handlers; raise
              seconds = next(wait)
              on_backoff handlers
              time.sleep(seconds)
          else:
              return ret
>>
    so [giveup] is evaluated on every caught failure, before the try count
    is looked at, and an exception raised inside [giveup] leaves the loop. *)
Module backoff.

(** [backoff.constant(interval)]: the same wait at every retry. *)
Definition constant (interval : Q) (n : nat) : Q := interval.

Section on_exception.
Context {A : Type}.
Variable wait_gen : nat -> Q.
Variable exception : exn -> bool.
Variable max_tries : nat.
Variable giveup : exn -> M bool.
Variable target : M A.

Fixpoint retry (fuel : nat) (tries : nat) : M A :=
  match fuel with
  | O => fun w => (OutOfFuel, w)
  | S fuel' =>
      let tries := S tries in
      try_except target exception (fun e =>
        g ← giveup e;
        if g || Nat.eqb tries max_tries
        then emit (EOnGiveup tries);; raise e
        else
          let seconds := wait_gen (tries - 1) in
          emit (EOnBackoff tries seconds);;
          time_sleep seconds;;
          retry fuel' tries)
  end.

(** The loop leaves after at most [max_tries] rounds, so that much fuel
    is enough (see [call_total]). *)
Definition on_exception : M A := retry max_tries 0.
End on_exception.

End backoff.

(** ** [tap_slack/client.py] *)

Definition BACKOFF_INTERVAL : Q := 15.
Definition BACKOFF_MAX_TRIES : nat := 4.

(** The remote service: the outcome of its n-th call (from 0). *)
Inductive outcome : Type :=
| Success (r : SlackResponse)
| Failure (e : exn).

Definition error_code (response : SlackResponse) : value :=
  dict_get (data response) "error" (VStr "").

(** The eleven methods of [SlackClient], each with its arguments.  Channel
    identifiers that the method formats into a log message are strings. *)
Inductive operation : Type :=
| get_all_channels (types exclude_archived : value)
| get_channel (include_num_members channel : value)
| get_channel_members (channel : string)
| get_messages (channel : string) (oldest latest : value)
| get_thread (channel ts inclusive oldest latest : value)
| get_users (limit : value)
| get_user_groups (include_count include_disabled include_user : value)
| get_teams
| get_files (from_ts to_ts : value)
| get_remote_files (from_ts to_ts : value)
| join_channel (channel : value).

Section SlackClient.
Variable script : nat -> outcome.

(** [self.webclient.<method>(kwargs)]. *)
Definition webclient (method : string) (kwargs : list (string * value))
    : M SlackResponse :=
  fun w =>
    let w' := mkWorld (S (calls w)) (trace w ++ [ECall method kwargs]) in
    match script (calls w) with
    | Success r => (Return r, w')
    | Failure e => (Raise e, w')
    end.

(** [wait] is handed to backoff as [giveup]; it returns [None], which
    backoff reads as "do not give up". *)
Definition wait (err : exn) : M bool :=
  match err with
  | SlackApiError response =>
      delay ← (if value_eq_str (error_code response) "ratelimited"
               then int (dict_get (headers response) "Retry-After" "0")
               else raise err);
      time_sleep (inject_Z delay);;
      ret false
  | _ => ret false
  end.

(** [(SlackApiError, TimeoutError)]. *)
Definition retryable (e : exn) : bool :=
  match e with
  | SlackApiError _ | TimeoutError => true
  | _ => false
  end.

Definition is_SlackApiError (e : exn) : bool :=
  match e with
  | SlackApiError _ => true
  | _ => false
  end.

(** The decorator every method carries. *)
Definition decorated (target : M retval) : M retval :=
  backoff.on_exception (backoff.constant BACKOFF_INTERVAL) retryable
    BACKOFF_MAX_TRIES wait target.

(** The body of each method, before decoration. *)
Definition body (op : operation) : M retval :=
  match op with
  | get_all_channels types exclude_archived =>
      r ← webclient "conversations_list"
            [("exclude_archived", exclude_archived); ("types", types)];
      ret (RResponse r)
  | get_channel include_num_members channel =>
      page ← webclient "conversations_info"
               [("channel", channel); ("include_num_members", include_num_members)];
      ret (RValue (dict_get (data page) "channel" VNone))
  | get_channel_members channel =>
      try_except
        (members_cursor ← webclient "conversations_members" [("channel", VStr channel)];
         ret (RResponse members_cursor))
        is_SlackApiError
        (fun err =>
           match err with
           | SlackApiError response =>
               if value_eq_str (error_code response) "fetch_members_failed"
               then LOGGER_warning ("Failed to fetch members for channel: " ++ channel);;
                    ret (RValue (VList []))
               else raise err
           | _ => raise err
           end)
  | get_messages channel oldest latest =>
      try_except
        (messages ← webclient "conversations_history"
                      [("channel", VStr channel); ("oldest", oldest); ("latest", latest)];
         ret (RResponse messages))
        is_SlackApiError
        (fun err =>
           match err with
           | SlackApiError response =>
               if value_eq_str (error_code response) "not_in_channel"
               then LOGGER_warning ("Attempted to get messages for channel: " ++ channel
                                      ++ " that slackbot is not in");;
                    ret (RValue VNone)
               else raise err
           | _ => raise err
           end)
  | get_thread channel ts inclusive oldest latest =>
      r ← webclient "conversations_replies"
            [("channel", channel); ("ts", ts); ("inclusive", inclusive);
             ("oldest", oldest); ("latest", latest)];
      ret (RResponse r)
  | get_users limit =>
      r ← webclient "users_list" [("limit", limit)];
      ret (RResponse r)
  | get_user_groups include_count include_disabled include_user =>
      r ← webclient "usergroups_list"
            [("include_count", include_count); ("include_disabled", include_disabled);
             ("include_user", include_user)];
      ret (RResponse r)
  | get_teams =>
      r ← webclient "team_info" [];
      ret (RResponse r)
  | get_files from_ts to_ts =>
      r ← webclient "files_list" [("from_ts", from_ts); ("to_ts", to_ts)];
      ret (RResponse r)
  | get_remote_files from_ts to_ts =>
      r ← webclient "files_remote_list" [("from_ts", from_ts); ("to_ts", to_ts)];
      ret (RResponse r)
  | join_channel channel =>
      r ← webclient "conversations_join" [("channel", channel)];
      ret (RResponse r)
  end.

(** Calling a method of the client: the decorated body. *)
Definition call (op : operation) : M retval := decorated (body op).

(** A call from a fresh world. *)
Definition run (op : operation) : result retval * world := call op init.
End SlackClient.

(** ** Vocabulary for the statements *)

(** The remote call an operation makes. *)
Definition request (op : operation) : event :=
  match op with
  | get_all_channels types exclude_archived =>
      ECall "conversations_list" [("exclude_archived", exclude_archived); ("types", types)]
  | get_channel include_num_members channel =>
      ECall "conversations_info"
        [("channel", channel); ("include_num_members", include_num_members)]
  | get_channel_members channel =>
      ECall "conversations_members" [("channel", VStr channel)]
  | get_messages channel oldest latest =>
      ECall "conversations_history"
        [("channel", VStr channel); ("oldest", oldest); ("latest", latest)]
  | get_thread channel ts inclusive oldest latest =>
      ECall "conversations_replies"
        [("channel", channel); ("ts", ts); ("inclusive", inclusive);
         ("oldest", oldest); ("latest", latest)]
  | get_users limit => ECall "users_list" [("limit", limit)]
  | get_user_groups include_count include_disabled include_user =>
      ECall "usergroups_list"
        [("include_count", include_count); ("include_disabled", include_disabled);
         ("include_user", include_user)]
  | get_teams => ECall "team_info" []
  | get_files from_ts to_ts => ECall "files_list" [("from_ts", from_ts); ("to_ts", to_ts)]
  | get_remote_files from_ts to_ts =>
      ECall "files_remote_list" [("from_ts", from_ts); ("to_ts", to_ts)]
  | join_channel channel => ECall "conversations_join" [("channel", channel)]
  end.

(** The world after the remote call of [op] has been made. *)
Definition called (op : operation) (w : world) : world :=
  mkWorld (S (calls w)) (trace w ++ [request op]).

(** What a method returns when its remote call answered [r]. *)
Definition success_value (op : operation) (r : SlackResponse) : retval :=
  match op with
  | get_channel _ _ => RValue (dict_get (data r) "channel" VNone)
  | _ => RResponse r
  end.

(** The error code a method absorbs, with the value it returns instead and
    the warning it logs. *)
Definition tolerated (op : operation) : option (string * retval * string) :=
  match op with
  | get_channel_members channel =>
      Some ("fetch_members_failed", RValue (VList []),
            ("Failed to fetch members for channel: " ++ channel)%string)
  | get_messages channel _ _ =>
      Some ("not_in_channel", RValue VNone,
            ("Attempted to get messages for channel: " ++ channel
               ++ " that slackbot is not in")%string)
  | _ => None
  end.

Definition tolerates (op : operation) (e : exn) : bool :=
  match tolerated op, e with
  | Some (code, _, _), SlackApiError response => value_eq_str (error_code response) code
  | _, _ => false
  end.

Definition ratelimited (response : SlackResponse) : bool :=
  value_eq_str (error_code response) "ratelimited".

(** The delay [wait] reads off a rate-limit response, when [int] accepts
    the header (a missing header reads as "0"). *)
Definition retry_after (response : SlackResponse) : option Z :=
  int_literal (dict_get (headers response) "Retry-After" "0").

(** The exception [wait] raises on a rate-limit response while it reads and
    sleeps the delay, if any: the one of [int], else the one of
    [time.sleep]. *)
Definition delay_error (response : SlackResponse) : option exn :=
  match parse_int (dict_get (headers response) "Retry-After" "0") with
  | inl d => sleep_error (inject_Z d)
  | inr err =>
      Some (ValueError (int_message (dict_get (headers response) "Retry-After" "0") err))
  end.

(** The exceptions that [int] and [time.sleep] raise. *)
Definition is_delay_exception (e : exn) : bool :=
  match e with
  | ValueError _ | OverflowError _ | OSError _ => true
  | _ => false
  end.

Definition is_call (e : event) : bool :=
  match e with ECall _ _ => true | _ => false end.

Definition is_sleep (e : event) : bool :=
  match e with ESleep _ => true | _ => false end.

Definition is_warning (e : event) : bool :=
  match e with EWarning _ => true | _ => false end.

(** Every record on any logger: the client's warnings and backoff's own. *)
Definition is_log (e : event) : bool :=
  match e with EWarning _ | EOnBackoff _ _ | EOnGiveup _ => true | _ => false end.

(** No sleep of negative length. *)
Definition sleep_nonneg (e : event) : Prop :=
  match e with
  | ESleep secs => (0 <= secs)%Q
  | _ => True
  end.

Definition sleeps (w : world) : list event := List.filter is_sleep (trace w).
Definition warnings (w : world) : list event := List.filter is_warning (trace w).
Definition logs (w : world) : list event := List.filter is_log (trace w).
Definition requests (w : world) : list event := List.filter is_call (trace w).

Definition is_backoff (e : event) : bool :=
  match e with EOnBackoff _ _ => true | _ => false end.

Definition backoffs (w : world) : list event := List.filter is_backoff (trace w).

(** The remote service as seen after its first [k] calls. *)
Definition shift (script : nat -> outcome) (k : nat) : nat -> outcome :=
  fun n => script (k + n).

(** ** Sample responses and scripts *)

Definition rate_limit_response (retry_after : option string) : SlackResponse :=
  mkResponse (<["ok" := VBool false]> {["error" := VStr "ratelimited"]})
             (match retry_after with
              | Some s => {["Retry-After" := s]}
              | None => ∅
              end).

Definition error_response (code : string) : SlackResponse :=
  mkResponse (<["ok" := VBool false]> {["error" := VStr code]}) ∅.

Definition ok_response : SlackResponse :=
  mkResponse (<["ok" := VBool true]> {["channel" := VDict [("id", VStr "C024BE91L")]]}) ∅.

Definition bare_response : SlackResponse :=
  mkResponse {["ok" := VBool true]} ∅.

(** The script that answers with the listed outcomes, then times out. *)
Definition replay (l : list outcome) (n : nat) : outcome :=
  default (Failure TimeoutError) (l !! n).

(** ** The shape of a call

    A call is a run of retried failures followed by one last remote call
    that ends it. *)

(** [retries script op k t n l]: from remote call number [k], with [t]
    tries behind, [n] failures in a row were retried, leaving the events
    [l]. *)
Inductive retries (script : nat -> outcome) (op : operation)
    : nat -> nat -> nat -> list event -> Prop :=
| retries_none k t : retries script op k t 0 []
| retries_timeout k t n l :
    script k = Failure TimeoutError ->
    retries script op (S k) (S t) n l ->
    retries script op k t (S n)
      (request op :: EOnBackoff (S t) BACKOFF_INTERVAL :: ESleep BACKOFF_INTERVAL :: l)
| retries_ratelimited k t n l response d :
    script k = Failure (SlackApiError response) ->
    ratelimited response = true -> retry_after response = Some d ->
    (0 <= d < KTIME_SEC_MAX)%Z ->
    retries script op (S k) (S t) n l ->
    retries script op k t (S n)
      (request op :: ESleep (inject_Z d) :: EOnBackoff (S t) BACKOFF_INTERVAL
         :: ESleep BACKOFF_INTERVAL :: l).

(** [ending op t o res l]: the remote call answered [o] with [t] tries
    behind; the method ends with [res] after the events [l]. *)
Inductive ending (op : operation) (t : nat)
    : outcome -> result retval -> list event -> Prop :=
| ending_success r :
    ending op t (Success r) (Return (success_value op r)) []
| ending_tolerated response code v msg :
    tolerated op = Some (code, v, msg) ->
    value_eq_str (error_code response) code = true ->
    ending op t (Failure (SlackApiError response)) (Return v) [EWarning msg]
| ending_other_code response :
    ratelimited response = false ->
    tolerates op (SlackApiError response) = false ->
    ending op t (Failure (SlackApiError response)) (Raise (SlackApiError response)) []
| ending_uncaught e :
    retryable e = false ->
    ending op t (Failure e) (Raise e) []
| ending_bad_delay response e :
    ratelimited response = true ->
    delay_error response = Some e ->
    ending op t (Failure (SlackApiError response)) (Raise e) []
| ending_timeout :
    S t = BACKOFF_MAX_TRIES ->
    ending op t (Failure TimeoutError) (Raise TimeoutError) [EOnGiveup (S t)]
| ending_ratelimited response d :
    ratelimited response = true -> retry_after response = Some d ->
    (0 <= d < KTIME_SEC_MAX)%Z ->
    S t = BACKOFF_MAX_TRIES ->
    ending op t (Failure (SlackApiError response)) (Raise (SlackApiError response))
      [ESleep (inject_Z d); EOnGiveup (S t)].

(** One rate-limit failure advising five seconds, then a success. *)
Definition limited_once : nat -> outcome :=
  replay [Failure (SlackApiError (rate_limit_response (Some "5"))); Success ok_response].

(** Four rate-limit failures in a row; the header of each is given. *)
Definition limited_four (h1 h2 h3 h4 : option string) : nat -> outcome :=
  replay [Failure (SlackApiError (rate_limit_response h1));
          Failure (SlackApiError (rate_limit_response h2));
          Failure (SlackApiError (rate_limit_response h3));
          Failure (SlackApiError (rate_limit_response h4));
          Success ok_response].

(** ** The steps of the retry loop *)

Section Steps.
Variable script : nat -> outcome.

Abbreviation loop := (backoff.retry (backoff.constant BACKOFF_INTERVAL) retryable
                        BACKOFF_MAX_TRIES wait).

Lemma body_success op r w :
  script (calls w) = Success r ->
  body script op w = (Return (success_value op r), called op w).
Proof.
  intros H. destruct op; cbv [body called request success_value mbind M_bind bind
    try_except webclient ret]; rewrite H; reflexivity.
Qed.

Lemma body_failure op e w :
  script (calls w) = Failure e -> tolerates op e = false ->
  body script op w = (Raise e, called op w).
Proof.
  intros H T.
  destruct op; cbv [body called request mbind M_bind bind try_except webclient ret];
    rewrite H; try reflexivity;
    (destruct e as [response| | | | |]; try reflexivity;
     cbv [tolerates tolerated] in T; cbn [is_SlackApiError]; rewrite T; reflexivity).
Qed.

Lemma body_tolerated op response code v msg w :
  script (calls w) = Failure (SlackApiError response) ->
  tolerated op = Some (code, v, msg) ->
  value_eq_str (error_code response) code = true ->
  body script op w = (Return v, record (EWarning msg) (called op w)).
Proof.
  intros H T C.
  destruct op; try discriminate T; cbv [tolerated] in T; inversion T; subst;
    cbv [body called request mbind M_bind bind try_except webclient ret
         is_SlackApiError LOGGER_warning emit];
    rewrite H, C; reflexivity.
Qed.

(** [time.sleep] of a whole number of seconds. *)
Lemma to_ns_inject d : to_ns (inject_Z d) = (d * NS_PER_SEC)%Z.
Proof.
  unfold to_ns, inject_Z. cbn [Qnum Qden].
  destruct (0 <=? d * NS_PER_SEC)%Z.
  - rewrite Z.add_simpl_r. apply Z.div_1_r.
  - rewrite Z.add_simpl_r, Z.div_1_r. apply Z.opp_involutive.
Qed.

Ltac sleep_cases :=
  unfold sleep_error; rewrite to_ns_inject;
  unfold NS_PER_SEC, PYTIME_MIN, PYTIME_MAX, KTIME_SEC_MAX in *;
  repeat match goal with
         | |- context [(?a <? ?b)%Z] => destruct (Z.ltb_spec a b)
         | |- context [(?a <=? ?b)%Z] => destruct (Z.leb_spec a b)
         end; cbn [orb]; intros; try discriminate; try reflexivity; try lia.

Lemma sleep_error_ok d :
  (0 <= d < KTIME_SEC_MAX)%Z -> sleep_error (inject_Z d) = None.
Proof. intros H. sleep_cases. Qed.

Lemma sleep_error_none d :
  sleep_error (inject_Z d) = None -> (0 <= d < KTIME_SEC_MAX)%Z.
Proof. sleep_cases. Qed.

Lemma sleep_error_negative d :
  (- KTIME_SEC_MAX <= d < 0)%Z ->
  sleep_error (inject_Z d) = Some (ValueError "sleep length must be non-negative").
Proof. intros H. sleep_cases. Qed.

Lemma sleep_error_is_delay secs e :
  sleep_error secs = Some e -> is_delay_exception e = true.
Proof.
  unfold sleep_error.
  destruct (_ || _)%bool; [intros [= <-]; reflexivity|].
  destruct (_ <? _)%Z; [intros [= <-]; reflexivity|].
  destruct (_ <=? _)%Z; [intros [= <-]; reflexivity|discriminate].
Qed.

(** The delay of a rate-limit response. *)
Lemma delay_ok response d :
  retry_after response = Some d -> (0 <= d < KTIME_SEC_MAX)%Z ->
  delay_error response = None.
Proof.
  unfold retry_after, int_literal, delay_error.
  destruct (parse_int _) as [z|err]; [|discriminate].
  intros [= ->] N. apply sleep_error_ok, N.
Qed.

Lemma delay_none response :
  delay_error response = None ->
  exists d, retry_after response = Some d /\ (0 <= d < KTIME_SEC_MAX)%Z.
Proof.
  unfold retry_after, int_literal, delay_error.
  destruct (parse_int _) as [z|err]; [|discriminate].
  intros H. exists z. split; [reflexivity|]. apply sleep_error_none, H.
Qed.

Lemma delay_unparseable response :
  retry_after response = None ->
  exists msg, delay_error response = Some (ValueError msg).
Proof.
  unfold retry_after, int_literal, delay_error.
  destruct (parse_int _) as [z|err]; [discriminate|]. eauto.
Qed.

Lemma delay_negative response d :
  retry_after response = Some d -> (- KTIME_SEC_MAX <= d < 0)%Z ->
  delay_error response = Some (ValueError "sleep length must be non-negative").
Proof.
  unfold retry_after, int_literal, delay_error.
  destruct (parse_int _) as [z|err]; [|discriminate].
  intros [= ->] N. apply sleep_error_negative, N.
Qed.

Lemma delay_error_is_delay response e :
  delay_error response = Some e -> is_delay_exception e = true.
Proof.
  unfold delay_error. destruct (parse_int _) as [z|err].
  - apply sleep_error_is_delay.
  - intros [= <-]. reflexivity.
Qed.

(** [wait] on each kind of failure. *)
Lemma wait_ratelimited response d w :
  ratelimited response = true -> retry_after response = Some d ->
  (0 <= d < KTIME_SEC_MAX)%Z ->
  wait (SlackApiError response) w = (Return false, record (ESleep (inject_Z d)) w).
Proof.
  intros R D P. unfold ratelimited, retry_after, int_literal in *.
  cbv [wait mbind M_bind bind int]. rewrite R.
  destruct (parse_int _) as [z|err]; [|discriminate]. injection D as ->.
  cbv [ret time_sleep]. rewrite (sleep_error_ok d P). reflexivity.
Qed.

Lemma wait_delay_error response e w :
  ratelimited response = true -> delay_error response = Some e ->
  wait (SlackApiError response) w = (Raise e, w).
Proof.
  intros R D. unfold ratelimited, delay_error in *.
  cbv [wait mbind M_bind bind int]. rewrite R.
  destruct (parse_int _) as [z|err].
  - cbv [ret time_sleep]. rewrite D. reflexivity.
  - injection D as <-. reflexivity.
Qed.

Lemma wait_other_code response w :
  ratelimited response = false ->
  wait (SlackApiError response) w = (Raise (SlackApiError response), w).
Proof.
  intros R. unfold ratelimited in R.
  cbv [wait mbind M_bind bind]. rewrite R. reflexivity.
Qed.

Lemma wait_timeout w : wait TimeoutError w = (Return false, w).
Proof. reflexivity. Qed.

(** One round of the decorated loop, spelled out. *)
Lemma loop_round (target : M retval) fuel tries w :
  loop target (S fuel) tries w =
  match target w with
  | (Return v, w1) => (Return v, w1)
  | (Raise e, w1) =>
      if retryable e then
        match wait e w1 with
        | (Return g, w2) =>
            if g || Nat.eqb (S tries) BACKOFF_MAX_TRIES
            then (Raise e, record (EOnGiveup (S tries)) w2)
            else loop target fuel (S tries)
                   (record (ESleep BACKOFF_INTERVAL)
                      (record (EOnBackoff (S tries) BACKOFF_INTERVAL) w2))
        | (Raise e', w2) => (Raise e', w2)
        | (OutOfFuel, w2) => (OutOfFuel, w2)
        end
      else (Raise e, w1)
  | (OutOfFuel, w1) => (OutOfFuel, w1)
  end.
Proof.
  cbn [backoff.retry]. unfold try_except at 1.
  destruct (target w) as [[v|e|] w1]; try reflexivity.
  destruct (retryable e); try reflexivity.
  cbv [mbind M_bind bind]. destruct (wait e w1) as [[g|e'|] w2]; try reflexivity.
  destruct (g || Nat.eqb (S tries) BACKOFF_MAX_TRIES); reflexivity.
Qed.

Lemma ratelimited_not_tolerated op response :
  ratelimited response = true -> tolerates op (SlackApiError response) = false.
Proof.
  unfold ratelimited, tolerates, value_eq_str.
  destruct (error_code response) as [| | |c| |]; try discriminate.
  intros H. apply bool_decide_eq_true in H. subst c.
  destruct op; reflexivity.
Qed.

Lemma round_success op r fuel tries w :
  script (calls w) = Success r ->
  loop (body script op) (S fuel) tries w = (Return (success_value op r), called op w).
Proof. intros H. rewrite loop_round, (body_success _ _ _ H). reflexivity. Qed.

Lemma round_tolerated op response code v msg fuel tries w :
  script (calls w) = Failure (SlackApiError response) ->
  tolerated op = Some (code, v, msg) ->
  value_eq_str (error_code response) code = true ->
  loop (body script op) (S fuel) tries w
  = (Return v, record (EWarning msg) (called op w)).
Proof.
  intros H T C. rewrite loop_round, (body_tolerated _ _ _ _ _ _ H T C). reflexivity.
Qed.

Lemma round_other_code op response fuel tries w :
  script (calls w) = Failure (SlackApiError response) ->
  ratelimited response = false ->
  tolerates op (SlackApiError response) = false ->
  loop (body script op) (S fuel) tries w
  = (Raise (SlackApiError response), called op w).
Proof.
  intros H R T. rewrite loop_round, (body_failure _ _ _ H T). cbn [retryable].
  rewrite (wait_other_code _ _ R). reflexivity.
Qed.

Lemma round_uncaught op e fuel tries w :
  script (calls w) = Failure e -> retryable e = false ->
  loop (body script op) (S fuel) tries w = (Raise e, called op w).
Proof.
  intros H R. rewrite loop_round, (body_failure _ _ _ H).
  - rewrite R. reflexivity.
  - destruct e; try discriminate R; unfold tolerates; destruct (tolerated op) as [[[? ?] ?]|];
      reflexivity.
Qed.

Lemma round_timeout op fuel tries w :
  script (calls w) = Failure TimeoutError ->
  loop (body script op) (S fuel) tries w =
  if Nat.eqb (S tries) BACKOFF_MAX_TRIES
  then (Raise TimeoutError, record (EOnGiveup (S tries)) (called op w))
  else loop (body script op) fuel (S tries)
         (record (ESleep BACKOFF_INTERVAL)
            (record (EOnBackoff (S tries) BACKOFF_INTERVAL) (called op w))).
Proof.
  intros H. rewrite loop_round, (body_failure _ _ _ H).
  - reflexivity.
  - unfold tolerates; destruct (tolerated op) as [[[? ?] ?]|]; reflexivity.
Qed.

Lemma round_ratelimited op response d fuel tries w :
  script (calls w) = Failure (SlackApiError response) ->
  ratelimited response = true -> retry_after response = Some d ->
  (0 <= d < KTIME_SEC_MAX)%Z ->
  loop (body script op) (S fuel) tries w =
  if Nat.eqb (S tries) BACKOFF_MAX_TRIES
  then (Raise (SlackApiError response),
        record (EOnGiveup (S tries)) (record (ESleep (inject_Z d)) (called op w)))
  else loop (body script op) fuel (S tries)
         (record (ESleep BACKOFF_INTERVAL)
            (record (EOnBackoff (S tries) BACKOFF_INTERVAL)
               (record (ESleep (inject_Z d)) (called op w)))).
Proof.
  intros H R D P.
  rewrite loop_round, (body_failure _ _ _ H (ratelimited_not_tolerated _ _ R)).
  cbn [retryable]. rewrite (wait_ratelimited _ _ _ R D P). reflexivity.
Qed.

Lemma round_bad_delay op response e fuel tries w :
  script (calls w) = Failure (SlackApiError response) ->
  ratelimited response = true ->
  delay_error response = Some e ->
  loop (body script op) (S fuel) tries w = (Raise e, called op w).
Proof.
  intros H R D.
  rewrite loop_round, (body_failure _ _ _ H (ratelimited_not_tolerated _ _ R)).
  cbn [retryable]. rewrite (wait_delay_error _ _ _ R D). reflexivity.
Qed.

Lemma call_rounds op w : call script op w = loop (body script op) 4 0 w.
Proof. reflexivity. Qed.

(** Induction along the rounds of one call: a property of (tries so far,
    world, outcome of the loop from there) holds as soon as it holds in
    each way a round can end and is carried back over each retry. *)
Section Rounds.
Variable op : operation.
Variable P : nat -> world -> result retval * world -> Prop.

Hypothesis P_success : forall tries w r,
  script (calls w) = Success r ->
  P tries w (Return (success_value op r), called op w).
Hypothesis P_tolerated : forall tries w response code v msg,
  script (calls w) = Failure (SlackApiError response) ->
  tolerated op = Some (code, v, msg) ->
  value_eq_str (error_code response) code = true ->
  P tries w (Return v, record (EWarning msg) (called op w)).
Hypothesis P_other_code : forall tries w response,
  script (calls w) = Failure (SlackApiError response) ->
  ratelimited response = false ->
  tolerates op (SlackApiError response) = false ->
  P tries w (Raise (SlackApiError response), called op w).
Hypothesis P_uncaught : forall tries w e,
  script (calls w) = Failure e -> retryable e = false ->
  P tries w (Raise e, called op w).
Hypothesis P_bad_delay : forall tries w response e,
  script (calls w) = Failure (SlackApiError response) ->
  ratelimited response = true ->
  delay_error response = Some e ->
  P tries w (Raise e, called op w).
Hypothesis P_timeout_giveup : forall tries w,
  script (calls w) = Failure TimeoutError ->
  S tries = BACKOFF_MAX_TRIES ->
  P tries w (Raise TimeoutError, record (EOnGiveup (S tries)) (called op w)).
Hypothesis P_timeout_retry : forall tries w res,
  script (calls w) = Failure TimeoutError ->
  S tries < BACKOFF_MAX_TRIES ->
  P (S tries)
    (record (ESleep BACKOFF_INTERVAL)
       (record (EOnBackoff (S tries) BACKOFF_INTERVAL) (called op w))) res ->
  P tries w res.
Hypothesis P_ratelimited_giveup : forall tries w response d,
  script (calls w) = Failure (SlackApiError response) ->
  ratelimited response = true -> retry_after response = Some d ->
  (0 <= d < KTIME_SEC_MAX)%Z ->
  S tries = BACKOFF_MAX_TRIES ->
  P tries w (Raise (SlackApiError response),
             record (EOnGiveup (S tries))
               (record (ESleep (inject_Z d)) (called op w))).
Hypothesis P_ratelimited_retry : forall tries w response d res,
  script (calls w) = Failure (SlackApiError response) ->
  ratelimited response = true -> retry_after response = Some d ->
  (0 <= d < KTIME_SEC_MAX)%Z ->
  S tries < BACKOFF_MAX_TRIES ->
  P (S tries)
    (record (ESleep BACKOFF_INTERVAL)
       (record (EOnBackoff (S tries) BACKOFF_INTERVAL)
          (record (ESleep (inject_Z d)) (called op w)))) res ->
  P tries w res.

Lemma rounds_ind fuel : forall tries w,
  tries + fuel = BACKOFF_MAX_TRIES -> tries < BACKOFF_MAX_TRIES ->
  P tries w (loop (body script op) fuel tries w).
Proof.
  induction fuel as [|fuel IH]; intros tries w Hsum Hlt; [lia|].
  destruct (script (calls w)) as [r|e] eqn:E.
  { rewrite (round_success _ _ _ _ _ E). auto. }
  destruct e as [response| |msg|msg|msg|name].
  - destruct (ratelimited response) eqn:R.
    + destruct (delay_error response) as [e|] eqn:DE.
      { rewrite (round_bad_delay op _ _ fuel tries _ E R DE).
        apply P_bad_delay with (response := response); assumption. }
      destruct (delay_none _ DE) as (d & D & N).
      rewrite (round_ratelimited _ _ _ _ _ _ E R D N).
      destruct (Nat.eqb_spec (S tries) BACKOFF_MAX_TRIES) as [F|F].
      * eauto.
      * eapply P_ratelimited_retry; eauto; [lia|]. apply IH; lia.
    + destruct (tolerated op) as [[[code v] m]|] eqn:T.
      * destruct (value_eq_str (error_code response) code) eqn:C.
        -- rewrite (round_tolerated _ _ _ _ _ _ _ _ E T C). eauto.
        -- rewrite (round_other_code _ _ _ _ _ E R); [|unfold tolerates; rewrite T; exact C].
           apply P_other_code; auto. unfold tolerates. rewrite T. exact C.
      * rewrite (round_other_code _ _ _ _ _ E R); [|unfold tolerates; rewrite T; reflexivity].
        apply P_other_code; auto. unfold tolerates. rewrite T. reflexivity.
  - rewrite (round_timeout _ _ _ _ E).
    destruct (Nat.eqb_spec (S tries) BACKOFF_MAX_TRIES) as [F|F].
    + auto.
    + eapply P_timeout_retry; eauto; [lia|]. apply IH; lia.
  - rewrite (round_uncaught _ _ _ _ _ E); auto.
  - rewrite (round_uncaught _ _ _ _ _ E); auto.
  - rewrite (round_uncaught _ _ _ _ _ E); auto.
  - rewrite (round_uncaught _ _ _ _ _ E); auto.
Qed.

(** The same for a whole call. *)
Lemma call_ind w : P 0 w (call script op w).
Proof. apply rounds_ind; unfold BACKOFF_MAX_TRIES; lia. Qed.
End Rounds.
End Steps.

(** ** What one call does *)

Ltac world_simpl :=
  cbn [fst snd calls trace called record init] in *.

(** A call always ends: the fuel [BACKOFF_MAX_TRIES] is never used up. *)
Lemma call_total script op w : fst (call script op w) <> OutOfFuel.
Proof.
  apply (call_ind script op (fun _ _ res => fst res <> OutOfFuel));
    intros; world_simpl; try discriminate; assumption.
Qed.

(** At most [BACKOFF_MAX_TRIES] remote calls, and at least one. *)
Lemma call_count script op w :
  calls w < calls (snd (call script op w)) <= calls w + BACKOFF_MAX_TRIES.
Proof.
  assert (G : forall fuel tries w0, tries + fuel = BACKOFF_MAX_TRIES ->
            tries < BACKOFF_MAX_TRIES ->
            calls w0 < calls (snd (backoff.retry (backoff.constant BACKOFF_INTERVAL)
                                     retryable BACKOFF_MAX_TRIES wait (body script op)
                                     fuel tries w0))
            <= calls w0 + (BACKOFF_MAX_TRIES - tries)).
  { intros fuel tries w0.
    intros Hsum Hlt. generalize Hlt.
    apply (rounds_ind script op (fun tries w res => tries < BACKOFF_MAX_TRIES ->
             calls w < calls (snd res) <= calls w + (BACKOFF_MAX_TRIES - tries)));
      intros; world_simpl; lia. }
  specialize (G BACKOFF_MAX_TRIES 0 w). unfold call, decorated, backoff.on_exception.
  unfold BACKOFF_MAX_TRIES in *. lia.
Qed.

Ltac trace_eq := rewrite <- ?app_assoc; cbn [app]; reflexivity.

(** Every call has the shape described by [retries] and [ending]. *)
Lemma call_shape script op w :
  exists n pre tail,
    retries script op (calls w) 0 n pre /\
    ending op n (script (calls w + n)) (fst (call script op w)) tail /\
    trace (snd (call script op w)) = trace w ++ pre ++ request op :: tail /\
    calls (snd (call script op w)) = calls w + S n /\
    n < BACKOFF_MAX_TRIES.
Proof.
  assert (Z0 : 0 < BACKOFF_MAX_TRIES) by (unfold BACKOFF_MAX_TRIES; lia).
  revert Z0.
  apply (call_ind script op (fun t w res => t < BACKOFF_MAX_TRIES ->
    exists n pre tail,
      retries script op (calls w) t n pre /\
      ending op (t + n) (script (calls w + n)) (fst res) tail /\
      trace (snd res) = trace w ++ pre ++ request op :: tail /\
      calls (snd res) = calls w + S n /\
      t + n < BACKOFF_MAX_TRIES)).
  all: intros tries w0.
  1-6: intros; eexists 0, [], _; world_simpl; rewrite !Nat.add_0_r;
       match goal with E : _ (calls _) = _ |- _ => rewrite E end;
       (split; [constructor|]); (split; [econstructor; eassumption|]);
       (split; [trace_eq|]); split; lia.
  - intros res E Hlt IH Ht.
    destruct (IH Hlt) as (n & pre & tail & R & En & T & C & B). world_simpl.
    exists (S n), (request op :: EOnBackoff (S tries) BACKOFF_INTERVAL
                     :: ESleep BACKOFF_INTERVAL :: pre), tail.
    replace (calls w0 + S n) with (S (calls w0) + n) by lia.
    replace (tries + S n) with (S tries + n) by lia.
    split; [constructor; assumption|]. split; [assumption|].
    split; [rewrite T; trace_eq|]. split; lia.
  - intros response d E R D N F Ht. exists 0, [], [ESleep (inject_Z d); EOnGiveup (S tries)].
    world_simpl. rewrite !Nat.add_0_r, E.
    split; [constructor|]. split; [constructor; assumption|].
    split; [trace_eq|]. split; lia.
  - intros response d res E R D N Hlt IH Ht.
    destruct (IH Hlt) as (n & pre & tail & Rs & En & T & C & B). world_simpl.
    exists (S n), (request op :: ESleep (inject_Z d) :: EOnBackoff (S tries) BACKOFF_INTERVAL
                     :: ESleep BACKOFF_INTERVAL :: pre), tail.
    replace (calls w0 + S n) with (S (calls w0) + n) by lia.
    replace (tries + S n) with (S tries + n) by lia.
    split; [econstructor; eassumption|]. split; [assumption|].
    split; [rewrite T; trace_eq|]. split; lia.
Qed.

(** *** What the retried failures were *)

Lemma request_is_call op : is_call (request op) = true.
Proof. destruct op; reflexivity. Qed.

Lemma request_not_warning op : is_warning (request op) = false.
Proof. destruct op; reflexivity. Qed.

Lemma request_not_sleep op : is_sleep (request op) = false.
Proof. destruct op; reflexivity. Qed.

Lemma request_not_log op : is_log (request op) = false.
Proof. destruct op; reflexivity. Qed.

Lemma retries_outcome script op k t n pre :
  retries script op k t n pre ->
  forall j, j < n ->
    script (k + j) = Failure TimeoutError \/
    exists response d,
      script (k + j) = Failure (SlackApiError response) /\
      ratelimited response = true /\ retry_after response = Some d /\
      (0 <= d < KTIME_SEC_MAX)%Z.
Proof.
  induction 1 as [k t|k t n l E R IH|k t n l response d E RL D N R IH]; intros j Hj.
  - lia.
  - destruct j as [|j].
    + rewrite Nat.add_0_r. now left.
    + replace (k + S j) with (S k + j) by lia. apply IH. lia.
  - destruct j as [|j].
    + rewrite Nat.add_0_r. right. exists response, d. auto.
    + replace (k + S j) with (S k + j) by lia. apply IH. lia.
Qed.

Lemma retries_no_warning script op k t n pre :
  retries script op k t n pre -> List.filter is_warning pre = [].
Proof.
  induction 1; cbn [List.filter is_warning]; rewrite ?request_not_warning; auto.
Qed.

(** A failure that is neither a timeout nor a rate limit was not retried:
    it is the last remote call. *)
Lemma not_retried_is_last script op w k :
  calls w <= k < calls (snd (call script op w)) ->
  script k <> Failure TimeoutError ->
  (forall response, script k = Failure (SlackApiError response) ->
                    ratelimited response = false) ->
  exists pre tail,
    retries script op (calls w) 0 (k - calls w) pre /\
    ending op (k - calls w) (script k) (fst (call script op w)) tail /\
    trace (snd (call script op w)) = trace w ++ pre ++ request op :: tail /\
    calls (snd (call script op w)) = S k.
Proof.
  intros Hk NT NR.
  destruct (call_shape script op w) as (n & pre & tail & R & E & T & C & B).
  destruct (Nat.lt_ge_cases (k - calls w) n) as [L|G].
  - exfalso. destruct (retries_outcome _ _ _ _ _ _ R _ L) as [H|(response & d & H & RL & _)];
      replace (calls w + (k - calls w)) with k in H by lia.
    + contradiction.
    + rewrite (NR _ H) in RL. discriminate.
  - assert (n = k - calls w) as -> by lia.
    replace (calls w + (k - calls w)) with k in E by lia.
    exists pre, tail. repeat split; try assumption. lia.
Qed.

(** ** First-attempt success *)

(** C8, as stated, fails for [get_channel]: on a first-attempt success the
    method does not return the remote result but its "channel" entry. *)
Lemma first_success_get_channel_projects :
  replay [Success ok_response] 0 = Success ok_response /\
  fst (run (replay [Success ok_response]) (get_channel (VBool true) (VStr "C024BE91L")))
  = Return (RValue (VDict [("id", VStr "C024BE91L")])) /\
  fst (run (replay [Success ok_response]) (get_channel (VBool true) (VStr "C024BE91L")))
  <> Return (RResponse ok_response).
Proof.
  split; [reflexivity|]. split; [reflexivity|].
  intros H. vm_compute in H. discriminate H.
Qed.

(** C8 (amended): when the first remote call succeeds, the method returns at
    once what it makes of that result (the result itself, or its "channel"
    entry for [get_channel]): one remote call, no sleep, no log record. *)
Theorem first_attempt_success script op r :
  script 0 = Success r ->
  run script op = (Return (success_value op r), mkWorld 1 [request op]) /\
  requests (snd (run script op)) = [request op] /\
  sleeps (snd (run script op)) = [] /\
  logs (snd (run script op)) = [].
Proof.
  intros H. unfold run. rewrite call_rounds, (round_success script op r 3 0 init H).
  unfold requests, sleeps, logs. world_simpl. cbn [List.filter app].
  rewrite request_is_call, request_not_sleep, request_not_log. auto.
Qed.

Lemma first_attempt_success_witness :
  run (replay [Success ok_response]) get_teams
  = (Return (RResponse ok_response), mkWorld 1 [ECall "team_info" []]).
Proof.
  exact (proj1 (first_attempt_success (replay [Success ok_response]) get_teams
                  ok_response eq_refl)).
Defined.

(** ** The value a successful call returns *)

(** C9, as stated, fails for [get_channel]: the remote result is not handed
    back; here it has no "channel" entry and the method returns [None]. *)
Lemma get_channel_not_raw :
  replay [Success bare_response] 0 = Success bare_response /\
  fst (run (replay [Success bare_response]) (get_channel (VBool false) VNone))
  = Return (RValue VNone) /\
  fst (run (replay [Success bare_response]) (get_channel (VBool false) VNone))
  <> Return (RResponse bare_response).
Proof.
  split; [reflexivity|]. split; [reflexivity|].
  intros H. vm_compute in H. discriminate H.
Qed.

(** C9 (amended): whenever a remote call made by a method succeeds, the
    method returns that result unmodified, except [get_channel], which
    returns the result's "channel" entry ([None] when there is none). *)
Theorem success_is_returned script op k r :
  k < calls (snd (run script op)) ->
  script k = Success r ->
  fst (run script op) =
  Return (match op with
          | get_channel _ _ => RValue (dict_get (data r) "channel" VNone)
          | _ => RResponse r
          end).
Proof.
  intros Hk H. unfold run in *.
  destruct (not_retried_is_last script op init k) as (pre & tail & _ & E & _).
  - world_simpl. lia.
  - rewrite H. discriminate.
  - intros response H'. rewrite H in H'. discriminate.
  - rewrite H in E. inversion E. reflexivity.
Qed.

Lemma success_is_returned_witness :
  fst (run (replay [Failure TimeoutError; Success ok_response])
         (get_users (VInt 200)))
  = Return (RResponse ok_response).
Proof.
  apply (success_is_returned (replay [Failure TimeoutError; Success ok_response])
           (get_users (VInt 200)) 1 ok_response).
  - vm_compute. lia.
  - reflexivity.
Defined.

(** ** API errors that are not rate limits *)

Lemma tolerated_tolerates op code v msg response :
  tolerated op = Some (code, v, msg) ->
  tolerates op (SlackApiError response) = value_eq_str (error_code response) code.
Proof. intros T. unfold tolerates. rewrite T. reflexivity. Qed.

Lemma tolerated_not_ratelimited op code v msg response :
  tolerated op = Some (code, v, msg) ->
  value_eq_str (error_code response) code = true ->
  ratelimited response = false.
Proof.
  intros T C. destruct (ratelimited response) eqn:R; [|reflexivity].
  rewrite <- (tolerated_tolerates _ _ _ _ response T) in C.
  rewrite (ratelimited_not_tolerated op response R) in C. discriminate.
Qed.

(** C3, as stated, fails where a method absorbs the error code:
    "fetch_members_failed" is not a rate limit, yet [get_channel_members]
    does not propagate it. *)
Lemma fetch_members_failed_not_propagated :
  replay [Failure (SlackApiError (error_response "fetch_members_failed"))] 0
  = Failure (SlackApiError (error_response "fetch_members_failed")) /\
  ratelimited (error_response "fetch_members_failed") = false /\
  fst (run (replay [Failure (SlackApiError (error_response "fetch_members_failed"))])
         (get_channel_members "C024BE91L"))
  = Return (RValue (VList [])) /\
  fst (run (replay [Failure (SlackApiError (error_response "fetch_members_failed"))])
         (get_channel_members "C024BE91L"))
  <> Raise (SlackApiError (error_response "fetch_members_failed")).
Proof.
  split; [reflexivity|]. split; [reflexivity|]. split; [reflexivity|].
  intros H. vm_compute in H. discriminate H.
Qed.

(** C3 (amended): an API failure whose code is not "ratelimited", and is not
    the code the method absorbs, is propagated unchanged at once: on the
    first attempt the call consists of the one remote call; at any attempt
    it is the last remote call and nothing (no sleep, no log) follows it. *)
Theorem other_api_error_propagates script op response :
  ratelimited response = false ->
  tolerates op (SlackApiError response) = false ->
  (script 0 = Failure (SlackApiError response) ->
   run script op = (Raise (SlackApiError response), mkWorld 1 [request op])) /\
  (forall k, k < calls (snd (run script op)) ->
             script k = Failure (SlackApiError response) ->
             fst (run script op) = Raise (SlackApiError response) /\
             calls (snd (run script op)) = S k /\
             exists pre, trace (snd (run script op)) = pre ++ [request op]).
Proof.
  intros R T. split.
  - intros H. unfold run. rewrite call_rounds.
    rewrite (round_other_code script op response 3 0 init H R T). reflexivity.
  - intros k Hk H. unfold run in *.
    destruct (not_retried_is_last script op init k) as (pre & tail & _ & E & Tr & C).
    + world_simpl. lia.
    + rewrite H. discriminate.
    + intros response' H'. rewrite H in H'. injection H' as <-. exact R.
    + rewrite H in E. world_simpl.
      inversion E as [ |? code v msg To Cd| | |? msg B| |? d RL]; subst.
      * rewrite (tolerated_tolerates _ _ _ _ response To) in T. congruence.
      * split; [reflexivity|]. split; [assumption|]. exists pre. assumption.
      * split; [reflexivity|]. split; [assumption|]. exists pre. assumption.
      * congruence.
      * congruence.
Qed.

Lemma other_api_error_propagates_witness :
  run (replay [Failure (SlackApiError (error_response "channel_not_found"))])
    (join_channel (VStr "C024BE91L"))
  = (Raise (SlackApiError (error_response "channel_not_found")),
     mkWorld 1 [ECall "conversations_join" [("channel", VStr "C024BE91L")]]).
Proof.
  apply (other_api_error_propagates
           (replay [Failure (SlackApiError (error_response "channel_not_found"))])
           (join_channel (VStr "C024BE91L")) (error_response "channel_not_found"));
    reflexivity.
Defined.

(** ** The absorbed error codes *)

(** An absorbed code ends the call at whichever attempt it comes: the
    substitute value is returned and the one warning of the call is logged. *)
Lemma tolerated_ends_call script op code v msg response k :
  tolerated op = Some (code, v, msg) ->
  value_eq_str (error_code response) code = true ->
  k < calls (snd (run script op)) ->
  script k = Failure (SlackApiError response) ->
  fst (run script op) = Return v /\
  calls (snd (run script op)) = S k /\
  warnings (snd (run script op)) = [EWarning msg] /\
  exists pre, trace (snd (run script op)) = pre ++ [request op; EWarning msg].
Proof.
  intros To Cd Hk H. unfold run in *.
  pose proof (tolerated_not_ratelimited _ _ _ _ _ To Cd) as NR.
  destruct (not_retried_is_last script op init k) as (pre & tail & Rs & E & Tr & C).
  - world_simpl. lia.
  - rewrite H. discriminate.
  - intros response' H'. rewrite H in H'. injection H' as <-. exact NR.
  - rewrite H in E. world_simpl.
    inversion E as [ |? code' v' msg' To' Cd'|? R' T'| |? m B| |? d RL]; subst.
    + rewrite To in To'. injection To' as <- <- <-.
      split; [reflexivity|]. split; [assumption|]. split; [|exists pre; assumption].
      unfold warnings. rewrite Tr. cbn [app].
      rewrite List.filter_app, (retries_no_warning _ _ _ _ _ _ Rs).
      cbn [List.filter app is_warning]. rewrite request_not_warning. reflexivity.
    + rewrite (tolerated_tolerates _ _ _ _ response To) in T'. congruence.
    + discriminate.
    + congruence.
    + congruence.
Qed.

(** C6: when the remote call of [get_channel_members] fails with
    "fetch_members_failed", at the first attempt or a later one, the call
    ends there: no retry, nothing raised, the empty list returned, and the
    call has logged exactly one warning. *)
Theorem fetch_members_failed_returns_empty script channel response :
  value_eq_str (error_code response) "fetch_members_failed" = true ->
  (script 0 = Failure (SlackApiError response) ->
   run script (get_channel_members channel)
   = (Return (RValue (VList [])),
      mkWorld 1 [ECall "conversations_members" [("channel", VStr channel)];
                 EWarning ("Failed to fetch members for channel: " ++ channel)])) /\
  (forall k, k < calls (snd (run script (get_channel_members channel))) ->
             script k = Failure (SlackApiError response) ->
             fst (run script (get_channel_members channel)) = Return (RValue (VList [])) /\
             calls (snd (run script (get_channel_members channel))) = S k /\
             warnings (snd (run script (get_channel_members channel)))
             = [EWarning ("Failed to fetch members for channel: " ++ channel)]).
Proof.
  intros Cd. split.
  - intros H. unfold run. rewrite call_rounds.
    rewrite (round_tolerated script (get_channel_members channel) response _ _ _ 3 0 init
               H eq_refl Cd). reflexivity.
  - intros k Hk H.
    destruct (tolerated_ends_call script (get_channel_members channel) _ _ _ response k
                eq_refl Cd Hk H) as (R & C & W & _). auto.
Qed.

Lemma fetch_members_failed_returns_empty_witness :
  run (replay [Failure (SlackApiError (error_response "fetch_members_failed"))])
    (get_channel_members "C024BE91L")
  = (Return (RValue (VList [])),
     mkWorld 1 [ECall "conversations_members" [("channel", VStr "C024BE91L")];
                EWarning "Failed to fetch members for channel: C024BE91L"]).
Proof.
  apply (fetch_members_failed_returns_empty
           (replay [Failure (SlackApiError (error_response "fetch_members_failed"))])
           "C024BE91L" (error_response "fetch_members_failed")); reflexivity.
Defined.

(** C7: when the remote call of [get_messages] fails with "not_in_channel",
    at the first attempt or a later one, the call ends there: no retry,
    nothing raised, [None] returned, and the call has logged exactly one
    warning. *)
Theorem not_in_channel_returns_none script channel oldest latest response :
  value_eq_str (error_code response) "not_in_channel" = true ->
  (script 0 = Failure (SlackApiError response) ->
   run script (get_messages channel oldest latest)
   = (Return (RValue VNone),
      mkWorld 1 [ECall "conversations_history"
                   [("channel", VStr channel); ("oldest", oldest); ("latest", latest)];
                 EWarning ("Attempted to get messages for channel: " ++ channel
                             ++ " that slackbot is not in")])) /\
  (forall k, k < calls (snd (run script (get_messages channel oldest latest))) ->
             script k = Failure (SlackApiError response) ->
             fst (run script (get_messages channel oldest latest)) = Return (RValue VNone) /\
             calls (snd (run script (get_messages channel oldest latest))) = S k /\
             warnings (snd (run script (get_messages channel oldest latest)))
             = [EWarning ("Attempted to get messages for channel: " ++ channel
                            ++ " that slackbot is not in")]).
Proof.
  intros Cd. split.
  - intros H. unfold run. rewrite call_rounds.
    rewrite (round_tolerated script (get_messages channel oldest latest) response _ _ _
               3 0 init H eq_refl Cd). reflexivity.
  - intros k Hk H.
    destruct (tolerated_ends_call script (get_messages channel oldest latest) _ _ _
                response k eq_refl Cd Hk H) as (R & C & W & _). auto.
Qed.

Lemma not_in_channel_returns_none_witness :
  run (replay [Failure TimeoutError;
               Failure (SlackApiError (error_response "not_in_channel"))])
    (get_messages "C024BE91L" (VStr "1512085950.000216") VNone)
  = (Return (RValue VNone),
     mkWorld 2
       [ECall "conversations_history"
          [("channel", VStr "C024BE91L"); ("oldest", VStr "1512085950.000216");
           ("latest", VNone)];
        EOnBackoff 1 BACKOFF_INTERVAL; ESleep BACKOFF_INTERVAL;
        ECall "conversations_history"
          [("channel", VStr "C024BE91L"); ("oldest", VStr "1512085950.000216");
           ("latest", VNone)];
        EWarning "Attempted to get messages for channel: C024BE91L that slackbot is not in"])
  /\ warnings (snd (run (replay [Failure TimeoutError;
                                 Failure (SlackApiError (error_response "not_in_channel"))])
                      (get_messages "C024BE91L" (VStr "1512085950.000216") VNone)))
     = [EWarning "Attempted to get messages for channel: C024BE91L that slackbot is not in"].
Proof.
  split; [reflexivity|].
  apply (proj2 (not_in_channel_returns_none
           (replay [Failure TimeoutError;
                    Failure (SlackApiError (error_response "not_in_channel"))])
           "C024BE91L" (VStr "1512085950.000216") VNone
           (error_response "not_in_channel") eq_refl) 1).
  - vm_compute. lia.
  - reflexivity.
Defined.

(** ** A rate limit, then a success *)

(** C1, as stated, fails: after a rate-limit failure advising 5 seconds the
    call sleeps twice, the advised 5 seconds inside [wait] and then
    backoff's own fixed interval, before the second attempt. *)
Lemma rate_limit_sleeps_twice :
  limited_once 0 = Failure (SlackApiError (rate_limit_response (Some "5"))) /\
  ratelimited (rate_limit_response (Some "5")) = true /\
  retry_after (rate_limit_response (Some "5")) = Some 5%Z /\
  limited_once 1 = Success ok_response /\
  sleeps (snd (run limited_once get_teams))
  = [ESleep (inject_Z 5); ESleep BACKOFF_INTERVAL] /\
  sleeps (snd (run limited_once get_teams)) <> [ESleep (inject_Z 5)].
Proof.
  repeat (split; [reflexivity|]).
  intros H. vm_compute in H. discriminate H.
Qed.

Lemma safe_delay d : (0 <= d <= SLEEP_SAFE)%Z -> (0 <= d < KTIME_SEC_MAX)%Z.
Proof. unfold SLEEP_SAFE, KTIME_SEC_MAX. lia. Qed.

(** C1 (amended): if the first attempt fails with a rate-limit error whose
    retry delay parses to an integer d with 0 <= d <= 4294967 (a length
    [time.sleep] accepts everywhere) and the second attempt succeeds, the
    call sleeps exactly twice, d seconds and then the fixed interval (the
    advised delay comes on top of the fixed interval), and returns what the
    method makes of the second attempt's result. *)
Theorem rate_limit_then_success script op response d r :
  script 0 = Failure (SlackApiError response) ->
  ratelimited response = true ->
  retry_after response = Some d ->
  (0 <= d <= SLEEP_SAFE)%Z ->
  script 1 = Success r ->
  run script op
  = (Return (success_value op r),
     mkWorld 2 [request op; ESleep (inject_Z d);
                EOnBackoff 1 BACKOFF_INTERVAL; ESleep BACKOFF_INTERVAL;
                request op]) /\
  sleeps (snd (run script op)) = [ESleep (inject_Z d); ESleep BACKOFF_INTERVAL].
Proof.
  intros H0 R D N H1.
  assert (E : run script op
              = (Return (success_value op r),
                 mkWorld 2 [request op; ESleep (inject_Z d);
                            EOnBackoff 1 BACKOFF_INTERVAL; ESleep BACKOFF_INTERVAL;
                            request op])).
  { unfold run. rewrite call_rounds.
    rewrite (round_ratelimited script op response d 3 0 init H0 R D (safe_delay d N)).
    change (Nat.eqb 1 BACKOFF_MAX_TRIES) with false. cbv iota.
    rewrite round_success with (r := r) by exact H1. reflexivity. }
  split; [exact E|]. rewrite E. unfold sleeps. world_simpl.
  cbn [List.filter is_sleep]. rewrite request_not_sleep. reflexivity.
Qed.

Lemma rate_limit_then_success_witness :
  run limited_once (get_files (VInt 0) (VInt 1609459200))
  = (Return (RResponse ok_response),
     mkWorld 2 [ECall "files_list" [("from_ts", VInt 0); ("to_ts", VInt 1609459200)];
                ESleep (inject_Z 5);
                EOnBackoff 1 BACKOFF_INTERVAL; ESleep BACKOFF_INTERVAL;
                ECall "files_list" [("from_ts", VInt 0); ("to_ts", VInt 1609459200)]]).
Proof.
  apply (rate_limit_then_success limited_once (get_files (VInt 0) (VInt 1609459200))
           (rate_limit_response (Some "5")) 5 ok_response);
    try reflexivity. unfold SLEEP_SAFE. lia.
Defined.

(** ** The retry delay of a rate-limit failure *)

Lemma rounds_trace script op fuel tries w :
  tries + fuel = BACKOFF_MAX_TRIES -> tries < BACKOFF_MAX_TRIES ->
  exists l,
    trace (snd (backoff.retry (backoff.constant BACKOFF_INTERVAL) retryable
                  BACKOFF_MAX_TRIES wait (body script op) fuel tries w))
    = trace w ++ request op :: l.
Proof.
  apply (rounds_ind script op (fun _ w res =>
           exists l, trace (snd res) = trace w ++ request op :: l));
    intros; world_simpl;
    try (match goal with H : exists _, _ |- _ => destruct H as [l ->] end);
    repeat rewrite <- app_assoc; cbn [app]; eauto.
Qed.

Lemma interval_nonneg : (0 <= BACKOFF_INTERVAL)%Q.
Proof. vm_compute. discriminate. Qed.

Lemma inject_nonneg d : (0 <= d)%Z -> (0 <= inject_Z d)%Q.
Proof. intros H. unfold Qle. cbn. lia. Qed.

Lemma inject_nonneg_range d : (0 <= d < KTIME_SEC_MAX)%Z -> (0 <= inject_Z d)%Q.
Proof. intros [H _]. apply inject_nonneg, H. Qed.

Lemma request_sleep_nonneg op : sleep_nonneg (request op).
Proof. destruct op; exact I. Qed.

Lemma retries_sleeps_nonneg script op k t n pre :
  retries script op k t n pre -> Forall sleep_nonneg pre.
Proof.
  induction 1; repeat (apply Forall_cons; split); cbn [sleep_nonneg];
    auto using request_sleep_nonneg, interval_nonneg, inject_nonneg_range.
Qed.

Lemma ending_sleeps_nonneg op t o res tail :
  ending op t o res tail -> Forall sleep_nonneg tail.
Proof.
  destruct 1; repeat (apply Forall_cons; split); cbn [sleep_nonneg];
    auto using inject_nonneg_range.
Qed.

Lemma call_sleeps_nonneg script op w :
  Forall sleep_nonneg (trace w) ->
  Forall sleep_nonneg (trace (snd (call script op w))).
Proof.
  intros H. destruct (call_shape script op w) as (n & pre & tail & R & E & T & _).
  rewrite T. repeat (apply Forall_app; split); try assumption.
  - eapply retries_sleeps_nonneg; eassumption.
  - constructor; [apply request_sleep_nonneg|]. eapply ending_sleeps_nonneg; eassumption.
Qed.

Lemma missing_retry_after response :
  headers response !! "Retry-After" = None -> retry_after response = Some 0%Z.
Proof. intros H. unfold retry_after, dict_get. rewrite H. reflexivity. Qed.

(** C2, as stated, fails for a header that [int] rejects: the conversion
    error leaves [wait] and the call; nothing is slept and nothing retried,
    although the next attempt would have succeeded. *)
Lemma unparseable_retry_after_raises :
  ratelimited (rate_limit_response (Some "soon")) = true /\
  int_literal "soon" = None /\
  run (replay [Failure (SlackApiError (rate_limit_response (Some "soon")));
               Success ok_response]) get_teams
  = (Raise (ValueError "invalid literal for int() with base 10: 'soon'"),
     mkWorld 1 [ECall "team_info" []]) /\
  run (replay [Failure (SlackApiError (rate_limit_response (Some "0")));
               Success ok_response]) get_teams
  = (Return (RResponse ok_response),
     mkWorld 2 [ECall "team_info" []; ESleep 0;
                EOnBackoff 1 BACKOFF_INTERVAL; ESleep BACKOFF_INTERVAL;
                ECall "team_info" []]).
Proof. repeat split; reflexivity. Qed.

(** C2 (amended): on a rate-limit failure whose retry-delay header is
    missing, [wait] raises nothing and sleeps zero seconds, and the retry
    goes on as after an advised delay of zero; a header that is present but
    that [int] rejects is not defaulted: the [ValueError] of the conversion
    reaches the caller at once, after the one remote call.  No sleep of
    negative length is ever performed. *)
Theorem missing_retry_after_waits_zero script op response :
  script 0 = Failure (SlackApiError response) ->
  ratelimited response = true ->
  (headers response !! "Retry-After" = None ->
   (forall w, wait (SlackApiError response) w = (Return false, record (ESleep 0) w)) /\
   exists l, trace (snd (run script op))
             = [request op; ESleep 0; EOnBackoff 1 BACKOFF_INTERVAL;
                ESleep BACKOFF_INTERVAL; request op] ++ l) /\
  (forall s, headers response !! "Retry-After" = Some s -> int_literal s = None ->
             exists msg,
               run script op = (Raise (ValueError msg), mkWorld 1 [request op])) /\
  Forall sleep_nonneg (trace (snd (run script op))).
Proof.
  intros H0 R. split; [|split].
  - intros Hm. pose proof (missing_retry_after _ Hm) as D. split.
    + intros w. apply (wait_ratelimited response 0 w R D). unfold KTIME_SEC_MAX. lia.
    + unfold run. rewrite call_rounds.
      rewrite (round_ratelimited script op response 0 3 0 init H0 R D)
        by (unfold KTIME_SEC_MAX; lia).
      change (Nat.eqb 1 BACKOFF_MAX_TRIES) with false. cbv iota.
      match goal with |- context [backoff.retry _ _ _ _ _ 3 1 ?w] =>
        destruct (rounds_trace script op 3 1 w) as [l ->] end;
        [reflexivity | unfold BACKOFF_MAX_TRIES; lia |].
      world_simpl. exists l. reflexivity.
  - intros s Hs Hn.
    assert (D : retry_after response = None).
    { unfold retry_after, dict_get. rewrite Hs. exact Hn. }
    destruct (delay_unparseable response D) as [msg DE]. exists msg.
    unfold run. rewrite call_rounds.
    rewrite (round_bad_delay script op response _ 3 0 init H0 R DE). reflexivity.
  - apply call_sleeps_nonneg. constructor.
Qed.

Lemma missing_retry_after_waits_zero_witness :
  wait (SlackApiError (rate_limit_response None)) init
  = (Return false, mkWorld 0 [ESleep 0]).
Proof.
  apply (proj1 (missing_retry_after_waits_zero
           (replay [Failure (SlackApiError (rate_limit_response None)); Success ok_response])
           get_teams (rate_limit_response None) eq_refl eq_refl)).
  reflexivity.
Defined.

(** ** Four rate limits in a row *)

(** The whole call when the first four remote calls are rate-limited with
    well-formed delays. *)
Lemma four_rate_limits_run script op r1 r2 r3 r4 d1 d2 d3 d4 :
  script 0 = Failure (SlackApiError r1) -> ratelimited r1 = true ->
  retry_after r1 = Some d1 -> (0 <= d1 <= SLEEP_SAFE)%Z ->
  script 1 = Failure (SlackApiError r2) -> ratelimited r2 = true ->
  retry_after r2 = Some d2 -> (0 <= d2 <= SLEEP_SAFE)%Z ->
  script 2 = Failure (SlackApiError r3) -> ratelimited r3 = true ->
  retry_after r3 = Some d3 -> (0 <= d3 <= SLEEP_SAFE)%Z ->
  script 3 = Failure (SlackApiError r4) -> ratelimited r4 = true ->
  retry_after r4 = Some d4 -> (0 <= d4 <= SLEEP_SAFE)%Z ->
  run script op
  = (Raise (SlackApiError r4),
     mkWorld 4
       [request op; ESleep (inject_Z d1);
        EOnBackoff 1 BACKOFF_INTERVAL; ESleep BACKOFF_INTERVAL;
        request op; ESleep (inject_Z d2);
        EOnBackoff 2 BACKOFF_INTERVAL; ESleep BACKOFF_INTERVAL;
        request op; ESleep (inject_Z d3);
        EOnBackoff 3 BACKOFF_INTERVAL; ESleep BACKOFF_INTERVAL;
        request op; ESleep (inject_Z d4); EOnGiveup 4]).
Proof.
  intros H1 R1 D1 N1 H2 R2 D2 N2 H3 R3 D3 N3 H4 R4 D4 N4.
  unfold run. rewrite call_rounds.
  apply safe_delay in N1, N2, N3, N4.
  rewrite (round_ratelimited script op r1 d1 3 0 init H1 R1 D1 N1).
  change (Nat.eqb 1 BACKOFF_MAX_TRIES) with false. cbv iota.
  rewrite round_ratelimited with (response := r2) (d := d2) by assumption.
  change (Nat.eqb 2 BACKOFF_MAX_TRIES) with false. cbv iota.
  rewrite round_ratelimited with (response := r3) (d := d3) by assumption.
  change (Nat.eqb 3 BACKOFF_MAX_TRIES) with false. cbv iota.
  rewrite round_ratelimited with (response := r4) (d := d4) by assumption.
  reflexivity.
Qed.

(** C4, as stated, fails when a retry delay is not an integer literal: of
    four rate-limit failures in a row only the first is attempted, and what
    reaches the caller is the conversion error, not the fourth failure. *)
Lemma four_rate_limits_bad_delay :
  (forall k, k < 4 ->
     exists response,
       limited_four (Some "1.5") (Some "1.5") (Some "1.5") (Some "1.5") k
       = Failure (SlackApiError response) /\ ratelimited response = true) /\
  run (limited_four (Some "1.5") (Some "1.5") (Some "1.5") (Some "1.5"))
    (get_users (VInt 100))
  = (Raise (ValueError "invalid literal for int() with base 10: '1.5'"),
     mkWorld 1 [ECall "users_list" [("limit", VInt 100)]]) /\
  fst (run (limited_four (Some "1.5") (Some "1.5") (Some "1.5") (Some "1.5"))
         (get_users (VInt 100)))
  <> Raise (SlackApiError (rate_limit_response (Some "1.5"))).
Proof.
  split; [|split].
  - intros k Hk. exists (rate_limit_response (Some "1.5")).
    destruct k as [|[|[|[|k]]]]; try lia; split; reflexivity.
  - reflexivity.
  - intros H. vm_compute in H. discriminate H.
Qed.

(** C4 (amended): four rate-limit failures in a row whose retry delays are
    missing or integer literals between 0 and 4294967 use up the four tries;
    the fourth failure reaches the caller unchanged, after exactly four
    remote calls. *)
Theorem four_rate_limits_exhaust script op r1 r2 r3 r4 d1 d2 d3 d4 :
  script 0 = Failure (SlackApiError r1) -> ratelimited r1 = true ->
  retry_after r1 = Some d1 -> (0 <= d1 <= SLEEP_SAFE)%Z ->
  script 1 = Failure (SlackApiError r2) -> ratelimited r2 = true ->
  retry_after r2 = Some d2 -> (0 <= d2 <= SLEEP_SAFE)%Z ->
  script 2 = Failure (SlackApiError r3) -> ratelimited r3 = true ->
  retry_after r3 = Some d3 -> (0 <= d3 <= SLEEP_SAFE)%Z ->
  script 3 = Failure (SlackApiError r4) -> ratelimited r4 = true ->
  retry_after r4 = Some d4 -> (0 <= d4 <= SLEEP_SAFE)%Z ->
  fst (run script op) = Raise (SlackApiError r4) /\
  calls (snd (run script op)) = BACKOFF_MAX_TRIES /\
  requests (snd (run script op)) = [request op; request op; request op; request op].
Proof.
  intros H1 R1 D1 N1 H2 R2 D2 N2 H3 R3 D3 N3 H4 R4 D4 N4.
  rewrite (four_rate_limits_run script op r1 r2 r3 r4 d1 d2 d3 d4) by assumption.
  unfold requests. world_simpl. cbn [List.filter is_call].
  rewrite request_is_call. auto.
Qed.

Lemma four_rate_limits_exhaust_witness :
  fst (run (limited_four (Some "1") None (Some " 30 ") (Some "2")) get_teams)
  = Raise (SlackApiError (rate_limit_response (Some "2"))) /\
  calls (snd (run (limited_four (Some "1") None (Some " 30 ") (Some "2")) get_teams)) = 4.
Proof.
  destruct (four_rate_limits_exhaust
              (limited_four (Some "1") None (Some " 30 ") (Some "2")) get_teams
              (rate_limit_response (Some "1")) (rate_limit_response None)
              (rate_limit_response (Some " 30 ")) (rate_limit_response (Some "2"))
              1 0 30 2) as (R & C & _); try reflexivity; try (unfold SLEEP_SAFE; lia).
  split; assumption.
Defined.

(** At most [BACKOFF_MAX_TRIES] remote calls, whatever the remote service
    answers: there is never a fifth attempt. *)
Lemma never_a_fifth_attempt script op :
  calls (snd (run script op)) <= BACKOFF_MAX_TRIES.
Proof. pose proof (call_count script op init) as H. world_simpl. unfold run. lia. Qed.

(** C10, as stated, fails when the fourth failure carries a retry delay
    that [int] rejects: [wait] runs on it, but nothing is slept after the
    fourth remote call and the conversion error reaches the caller. *)
Lemma fourth_failure_without_final_sleep :
  (forall k, k < 4 ->
     exists response,
       limited_four (Some "1") (Some "1") (Some "1") (Some "soon") k
       = Failure (SlackApiError response) /\ ratelimited response = true) /\
  run (limited_four (Some "1") (Some "1") (Some "1") (Some "soon")) get_teams
  = (Raise (ValueError "invalid literal for int() with base 10: 'soon'"),
     mkWorld 4
       [ECall "team_info" []; ESleep 1;
        EOnBackoff 1 BACKOFF_INTERVAL; ESleep BACKOFF_INTERVAL;
        ECall "team_info" []; ESleep 1;
        EOnBackoff 2 BACKOFF_INTERVAL; ESleep BACKOFF_INTERVAL;
        ECall "team_info" []; ESleep 1;
        EOnBackoff 3 BACKOFF_INTERVAL; ESleep BACKOFF_INTERVAL;
        ECall "team_info" []]).
Proof.
  split; [|reflexivity].
  intros k Hk. destruct k as [|[|[|[|k]]]]; try lia; eexists; split; reflexivity.
Qed.

(** C10 (amended): with four rate-limit failures in a row whose retry delays
    are missing or integer literals between 0 and 4294967, [wait] runs on
    the fourth one too, so the advised delay is slept once more before the
    fourth failure reaches the caller; and whatever the delays, a rate-limit
    error never reaches the caller in another way: it is always the fourth
    failure, followed by the sleep of its advised delay and backoff's
    give-up. *)
Theorem final_sleep_before_giving_up script op :
  (forall r1 r2 r3 r4 d1 d2 d3 d4,
     script 0 = Failure (SlackApiError r1) -> ratelimited r1 = true ->
     retry_after r1 = Some d1 -> (0 <= d1 <= SLEEP_SAFE)%Z ->
     script 1 = Failure (SlackApiError r2) -> ratelimited r2 = true ->
     retry_after r2 = Some d2 -> (0 <= d2 <= SLEEP_SAFE)%Z ->
     script 2 = Failure (SlackApiError r3) -> ratelimited r3 = true ->
     retry_after r3 = Some d3 -> (0 <= d3 <= SLEEP_SAFE)%Z ->
     script 3 = Failure (SlackApiError r4) -> ratelimited r4 = true ->
     retry_after r4 = Some d4 -> (0 <= d4 <= SLEEP_SAFE)%Z ->
     fst (run script op) = Raise (SlackApiError r4) /\
     sleeps (snd (run script op))
     = [ESleep (inject_Z d1); ESleep BACKOFF_INTERVAL;
        ESleep (inject_Z d2); ESleep BACKOFF_INTERVAL;
        ESleep (inject_Z d3); ESleep BACKOFF_INTERVAL;
        ESleep (inject_Z d4)] /\
     exists pre,
       trace (snd (run script op))
       = pre ++ [request op; ESleep (inject_Z d4); EOnGiveup BACKOFF_MAX_TRIES]) /\
  (forall response,
     fst (run script op) = Raise (SlackApiError response) ->
     ratelimited response = true ->
     exists d pre,
       script 3 = Failure (SlackApiError response) /\
       retry_after response = Some d /\ (0 <= d)%Z /\
       trace (snd (run script op))
       = pre ++ [request op; ESleep (inject_Z d); EOnGiveup BACKOFF_MAX_TRIES]).
Proof.
  split.
  - intros r1 r2 r3 r4 d1 d2 d3 d4 H1 R1 D1 N1 H2 R2 D2 N2 H3 R3 D3 N3 H4 R4 D4 N4.
    rewrite (four_rate_limits_run script op r1 r2 r3 r4 d1 d2 d3 d4) by assumption.
    unfold sleeps. world_simpl. cbn [List.filter is_sleep].
    rewrite request_not_sleep. split; [reflexivity|]. split; [reflexivity|].
    exists [request op; ESleep (inject_Z d1);
            EOnBackoff 1 BACKOFF_INTERVAL; ESleep BACKOFF_INTERVAL;
            request op; ESleep (inject_Z d2);
            EOnBackoff 2 BACKOFF_INTERVAL; ESleep BACKOFF_INTERVAL;
            request op; ESleep (inject_Z d3);
            EOnBackoff 3 BACKOFF_INTERVAL; ESleep BACKOFF_INTERVAL].
    reflexivity.
  - intros response H R. unfold run in *.
    destruct (call_shape script op init) as (n & pre & tail & Rs & E & T & C & B).
    world_simpl. rewrite H in E.
    inversion E as [ | |? R' T' HS|e NR HS|? e RB DE HS| |? d RL D N F HS]; subst.
    + congruence.
    + discriminate.
    + apply delay_error_is_delay in DE. discriminate DE.
    + assert (n = 3) as -> by (unfold BACKOFF_MAX_TRIES in F; lia).
      exists d, pre. rewrite F in T. destruct N as [N _]. auto.
Qed.

Lemma final_sleep_before_giving_up_witness :
  sleeps (snd (run (limited_four (Some "1") None (Some "3") (Some "7")) get_teams))
  = [ESleep 1; ESleep BACKOFF_INTERVAL; ESleep 0; ESleep BACKOFF_INTERVAL;
     ESleep 3; ESleep BACKOFF_INTERVAL; ESleep 7] /\
  exists d pre,
    retry_after (rate_limit_response (Some "7")) = Some d /\
    trace (snd (run (limited_four (Some "1") None (Some "3") (Some "7")) get_teams))
    = pre ++ [ECall "team_info" []; ESleep (inject_Z d); EOnGiveup 4].
Proof.
  pose proof (final_sleep_before_giving_up
                (limited_four (Some "1") None (Some "3") (Some "7")) get_teams) as [A B].
  split.
  - apply (A (rate_limit_response (Some "1")) (rate_limit_response None)
             (rate_limit_response (Some "3")) (rate_limit_response (Some "7"))
             1%Z 0%Z 3%Z 7%Z); try reflexivity; unfold SLEEP_SAFE; lia.
  - destruct (B (rate_limit_response (Some "7")) eq_refl eq_refl)
      as (d & pre & _ & D & _ & T).
    exists d, pre. split; assumption.
Defined.

(** ** Timeouts and the fixed interval *)

Lemma retries_head script op k t n pre :
  retries script op k t n pre ->
  forall rest, exists l, pre ++ request op :: rest = request op :: l.
Proof. destruct 1; intros rest; cbn [app]; eauto. Qed.

(** A retried timeout is followed by backoff's record, the fixed wait and
    the next remote call. *)
Lemma retries_timeout_at script op k0 t0 n pre :
  retries script op k0 t0 n pre ->
  forall rest j, j < n ->
    script (k0 + j) = Failure TimeoutError ->
    exists l1 l2,
      pre ++ request op :: rest
      = l1 ++ [request op; EOnBackoff (S (t0 + j)) BACKOFF_INTERVAL;
               ESleep BACKOFF_INTERVAL; request op] ++ l2 /\
      length (List.filter is_call l1) = j.
Proof.
  induction 1 as [k t|k t n l E R IH|k t n l response d E RL D N R IH];
    intros rest j Hj Hs.
  - lia.
  - destruct j as [|j].
    + destruct (retries_head _ _ _ _ _ _ R rest) as [l' Hl].
      exists [], l'. cbn [app]. rewrite Hl, Nat.add_0_r. split; reflexivity.
    + replace (k + S j) with (S k + j) in Hs by lia.
      destruct (IH rest j ltac:(lia) Hs) as (l1 & l2 & Heq & Hlen).
      exists (request op :: EOnBackoff (S t) BACKOFF_INTERVAL
                :: ESleep BACKOFF_INTERVAL :: l1), l2.
      cbn [app]. rewrite Heq. replace (t + S j) with (S t + j) by lia.
      split; [reflexivity|].
      cbn [List.filter is_call]. rewrite request_is_call. cbn [length]. lia.
  - destruct j as [|j].
    + rewrite Nat.add_0_r in Hs. congruence.
    + replace (k + S j) with (S k + j) in Hs by lia.
      destruct (IH rest j ltac:(lia) Hs) as (l1 & l2 & Heq & Hlen).
      exists (request op :: ESleep (inject_Z d) :: EOnBackoff (S t) BACKOFF_INTERVAL
                :: ESleep BACKOFF_INTERVAL :: l1), l2.
      cbn [app]. rewrite Heq. replace (t + S j) with (S t + j) by lia.
      split; [reflexivity|].
      cbn [List.filter is_call]. rewrite request_is_call. cbn [length]. lia.
Qed.

(** A retried rate limit is followed by the advised sleep, backoff's record,
    the fixed wait and the next remote call. *)
Lemma retries_ratelimited_at script op k0 t0 n pre :
  retries script op k0 t0 n pre ->
  forall rest j response d, j < n ->
    script (k0 + j) = Failure (SlackApiError response) ->
    retry_after response = Some d ->
    exists l1 l2,
      pre ++ request op :: rest
      = l1 ++ [request op; ESleep (inject_Z d);
               EOnBackoff (S (t0 + j)) BACKOFF_INTERVAL;
               ESleep BACKOFF_INTERVAL; request op] ++ l2 /\
      length (List.filter is_call l1) = j.
Proof.
  induction 1 as [k t|k t n l E R IH|k t n l response0 d0 E RL D N R IH];
    intros rest j response d Hj Hs Hd.
  - lia.
  - destruct j as [|j].
    + rewrite Nat.add_0_r in Hs. congruence.
    + replace (k + S j) with (S k + j) in Hs by lia.
      destruct (IH rest j response d ltac:(lia) Hs Hd) as (l1 & l2 & Heq & Hlen).
      exists (request op :: EOnBackoff (S t) BACKOFF_INTERVAL
                :: ESleep BACKOFF_INTERVAL :: l1), l2.
      cbn [app]. rewrite Heq. replace (t + S j) with (S t + j) by lia.
      split; [reflexivity|].
      cbn [List.filter is_call]. rewrite request_is_call. cbn [length]. lia.
  - destruct j as [|j].
    + rewrite Nat.add_0_r in Hs. rewrite E in Hs. injection Hs as <-.
      rewrite D in Hd. injection Hd as <-.
      destruct (retries_head _ _ _ _ _ _ R rest) as [l' Hl].
      exists [], l'. cbn [app]. rewrite Hl, Nat.add_0_r. split; reflexivity.
    + replace (k + S j) with (S k + j) in Hs by lia.
      destruct (IH rest j response d ltac:(lia) Hs Hd) as (l1 & l2 & Heq & Hlen).
      exists (request op :: ESleep (inject_Z d0) :: EOnBackoff (S t) BACKOFF_INTERVAL
                :: ESleep BACKOFF_INTERVAL :: l1), l2.
      cbn [app]. rewrite Heq. replace (t + S j) with (S t + j) by lia.
      split; [reflexivity|].
      cbn [List.filter is_call]. rewrite request_is_call. cbn [length]. lia.
Qed.

(** C5, as stated, fails: the fixed-interval retry is not taken by timeouts
    only.  A rate-limit failure goes through it as well, after the advised
    sleep. *)
Lemma fixed_wait_after_rate_limit :
  replay [Failure (SlackApiError (rate_limit_response (Some "30"))); Success ok_response] 0
  <> Failure TimeoutError /\
  run (replay [Failure (SlackApiError (rate_limit_response (Some "30")));
               Success ok_response])
    (get_users (VInt 100))
  = (Return (RResponse ok_response),
     mkWorld 2 [ECall "users_list" [("limit", VInt 100)];
                ESleep 30;
                EOnBackoff 1 BACKOFF_INTERVAL; ESleep BACKOFF_INTERVAL;
                ECall "users_list" [("limit", VInt 100)]]).
Proof.
  split; [|reflexivity]. intros H. vm_compute in H. discriminate H.
Qed.

(** C5 (amended): a timeout with tries left is retried after exactly the
    fixed interval, the same at every attempt (no growth, no jitter).  A
    retry is taken only after a timeout or a rate-limit failure; an API
    error with another code is never retried.  A rate-limit failure with
    tries left whose delay is an integer d between 0 and 4294967 takes the
    same fixed wait after its advised sleep of d. *)
Theorem timeout_retried_after_fixed_wait script op k :
  k < calls (snd (run script op)) ->
  (script k = Failure TimeoutError -> S k < BACKOFF_MAX_TRIES ->
   exists l1 l2,
     trace (snd (run script op))
     = l1 ++ [request op; EOnBackoff (S k) BACKOFF_INTERVAL;
              ESleep BACKOFF_INTERVAL; request op] ++ l2 /\
     length (List.filter is_call l1) = k) /\
  (S k < calls (snd (run script op)) ->
   script k = Failure TimeoutError \/
   exists response,
     script k = Failure (SlackApiError response) /\ ratelimited response = true) /\
  (forall response,
     script k = Failure (SlackApiError response) -> ratelimited response = false ->
     calls (snd (run script op)) = S k) /\
  (forall response d,
     script k = Failure (SlackApiError response) -> ratelimited response = true ->
     retry_after response = Some d -> (0 <= d <= SLEEP_SAFE)%Z ->
     S k < BACKOFF_MAX_TRIES ->
     exists l1 l2,
       trace (snd (run script op))
       = l1 ++ [request op; ESleep (inject_Z d);
                EOnBackoff (S k) BACKOFF_INTERVAL;
                ESleep BACKOFF_INTERVAL; request op] ++ l2 /\
       length (List.filter is_call l1) = k).
Proof.
  intros Hk. unfold run in *.
  destruct (call_shape script op init) as (n & pre & tail & R & E & T & C & B).
  world_simpl. split; [|split; [|split]].
  - intros Ht Hlt.
    assert (L : k < n).
    { destruct (Nat.eq_dec k n) as [->|]; [|lia].
      change (0 + n) with n in E. rewrite Ht in E. inversion E; subst; [discriminate | lia]. }
    rewrite T. apply (retries_timeout_at script op 0 0 n pre R tail k L Ht).
  - intros Hr.
    destruct (retries_outcome script op 0 0 n pre R k ltac:(lia))
      as [H|(response & d & H & RL & _)]; [now left|right; eauto].
  - intros response H NR.
    destruct (not_retried_is_last script op init k) as (_ & _ & _ & _ & _ & C').
    + world_simpl. lia.
    + rewrite H. discriminate.
    + intros response' H'. rewrite H in H'. injection H' as <-. exact NR.
    + exact C'.
  - intros response d H RL D N Hlt. apply safe_delay in N.
    assert (L : k < n).
    { destruct (Nat.eq_dec k n) as [->|]; [|lia].
      change (0 + n) with n in E. rewrite H in E.
      inversion E as [ |? code v msg To Cd|? R' T'|? NR|? e RB DE| |? d' RL' D' N' F];
        subst.
      - pose proof (tolerated_not_ratelimited _ _ _ _ _ To Cd). congruence.
      - congruence.
      - discriminate NR.
      - rewrite (delay_ok _ _ D N) in DE. discriminate DE.
      - lia. }
    rewrite T. apply (retries_ratelimited_at script op 0 0 n pre R tail k response d L H D).
Qed.

Lemma timeout_retried_after_fixed_wait_witness :
  exists l1 l2,
    trace (snd (run (replay [Failure TimeoutError; Failure TimeoutError;
                             Success ok_response]) get_teams))
    = l1 ++ [ECall "team_info" []; EOnBackoff 2 BACKOFF_INTERVAL;
             ESleep BACKOFF_INTERVAL; ECall "team_info" []] ++ l2 /\
    length (List.filter is_call l1) = 1.
Proof.
  apply (proj1 (timeout_retried_after_fixed_wait
                  (replay [Failure TimeoutError; Failure TimeoutError; Success ok_response])
                  get_teams 1 ltac:(vm_compute; lia))).
  - reflexivity.
  - unfold BACKOFF_MAX_TRIES. lia.
Defined.

(** ** Further properties of a call *)

(** X1: four timeouts in a row use up the four tries: the timeout reaches
    the caller after four remote calls and three waits of the fixed
    interval; nothing is slept after the last failure. *)
Theorem four_timeouts_exhaust script op :
  script 0 = Failure TimeoutError ->
  script 1 = Failure TimeoutError ->
  script 2 = Failure TimeoutError ->
  script 3 = Failure TimeoutError ->
  run script op
  = (Raise TimeoutError,
     mkWorld 4
       [request op; EOnBackoff 1 BACKOFF_INTERVAL; ESleep BACKOFF_INTERVAL;
        request op; EOnBackoff 2 BACKOFF_INTERVAL; ESleep BACKOFF_INTERVAL;
        request op; EOnBackoff 3 BACKOFF_INTERVAL; ESleep BACKOFF_INTERVAL;
        request op; EOnGiveup 4]) /\
  sleeps (snd (run script op))
  = [ESleep BACKOFF_INTERVAL; ESleep BACKOFF_INTERVAL; ESleep BACKOFF_INTERVAL].
Proof.
  intros H0 H1 H2 H3.
  assert (E : run script op
              = (Raise TimeoutError,
                 mkWorld 4
                   [request op; EOnBackoff 1 BACKOFF_INTERVAL; ESleep BACKOFF_INTERVAL;
                    request op; EOnBackoff 2 BACKOFF_INTERVAL; ESleep BACKOFF_INTERVAL;
                    request op; EOnBackoff 3 BACKOFF_INTERVAL; ESleep BACKOFF_INTERVAL;
                    request op; EOnGiveup 4])).
  { unfold run. rewrite call_rounds.
    rewrite (round_timeout script op 3 0 init H0).
    change (Nat.eqb 1 BACKOFF_MAX_TRIES) with false. cbv iota.
    rewrite round_timeout by exact H1.
    change (Nat.eqb 2 BACKOFF_MAX_TRIES) with false. cbv iota.
    rewrite round_timeout by exact H2.
    change (Nat.eqb 3 BACKOFF_MAX_TRIES) with false. cbv iota.
    rewrite round_timeout by exact H3. reflexivity. }
  split; [exact E|]. rewrite E. unfold sleeps. world_simpl.
  cbn [List.filter is_sleep]. rewrite request_not_sleep. reflexivity.
Qed.

Lemma four_timeouts_exhaust_witness :
  run (replay []) (get_thread (VStr "C024BE91L") (VStr "1512085950.000216")
                     (VBool true) VNone VNone)
  = (Raise TimeoutError,
     mkWorld 4
       [request (get_thread (VStr "C024BE91L") (VStr "1512085950.000216")
                   (VBool true) VNone VNone);
        EOnBackoff 1 BACKOFF_INTERVAL; ESleep BACKOFF_INTERVAL;
        request (get_thread (VStr "C024BE91L") (VStr "1512085950.000216")
                   (VBool true) VNone VNone);
        EOnBackoff 2 BACKOFF_INTERVAL; ESleep BACKOFF_INTERVAL;
        request (get_thread (VStr "C024BE91L") (VStr "1512085950.000216")
                   (VBool true) VNone VNone);
        EOnBackoff 3 BACKOFF_INTERVAL; ESleep BACKOFF_INTERVAL;
        request (get_thread (VStr "C024BE91L") (VStr "1512085950.000216")
                   (VBool true) VNone VNone);
        EOnGiveup 4]).
Proof.
  apply (four_timeouts_exhaust (replay [])
           (get_thread (VStr "C024BE91L") (VStr "1512085950.000216")
              (VBool true) VNone VNone)); reflexivity.
Defined.

(** X2: an exception of the remote call that is neither a [SlackApiError]
    nor a [TimeoutError] is outside the decorator's reach: at whichever
    attempt it is raised, it reaches the caller unchanged, it is the last
    remote call and nothing follows it. *)
Theorem foreign_exception_propagates script op e k :
  retryable e = false ->
  k < calls (snd (run script op)) ->
  script k = Failure e ->
  fst (run script op) = Raise e /\
  calls (snd (run script op)) = S k /\
  exists pre, trace (snd (run script op)) = pre ++ [request op].
Proof.
  intros NR Hk H. unfold run in *.
  destruct (not_retried_is_last script op init k) as (pre & tail & _ & E & T & C).
  - world_simpl. lia.
  - rewrite H. intros H'. injection H' as ->. discriminate NR.
  - intros response H'. rewrite H in H'. injection H' as ->. discriminate NR.
  - rewrite H in E. world_simpl.
    inversion E; subst; try discriminate NR.
    split; [reflexivity|]. split; [assumption|]. exists pre. assumption.
Qed.

Lemma foreign_exception_propagates_witness :
  fst (run (replay [Failure TimeoutError; Failure (OtherError "ConnectionError")])
         get_teams)
  = Raise (OtherError "ConnectionError") /\
  calls (snd (run (replay [Failure TimeoutError; Failure (OtherError "ConnectionError")])
                get_teams)) = 2.
Proof.
  destruct (foreign_exception_propagates
              (replay [Failure TimeoutError; Failure (OtherError "ConnectionError")])
              get_teams (OtherError "ConnectionError") 1 eq_refl
              ltac:(vm_compute; lia) eq_refl) as (R & C & _).
  split; assumption.
Defined.

(** X3: a rate-limit failure that advises a negative delay (down to minus
    9223372036 seconds) is not retried: [time.sleep] rejects the length, and
    its [ValueError] reaches the caller with nothing slept.  At the first
    attempt the call is the one remote call; at any attempt it is the last
    one. *)
Theorem negative_retry_after_raises script op response d :
  ratelimited response = true ->
  retry_after response = Some d ->
  (- KTIME_SEC_MAX <= d < 0)%Z ->
  (script 0 = Failure (SlackApiError response) ->
   run script op
   = (Raise (ValueError "sleep length must be non-negative"), mkWorld 1 [request op])) /\
  (forall k, k < calls (snd (run script op)) ->
             script k = Failure (SlackApiError response) ->
             fst (run script op) = Raise (ValueError "sleep length must be non-negative") /\
             calls (snd (run script op)) = S k).
Proof.
  intros R D N. pose proof (delay_negative response d D N) as DE. split.
  - intros H. unfold run. rewrite call_rounds.
    rewrite (round_bad_delay script op response _ 3 0 init H R DE). reflexivity.
  - intros k Hk H. unfold run in *.
    destruct (call_shape script op init) as (n & pre & tail & Rs & E & T & C & B).
    world_simpl. change (0 + n) with n in E.
    assert (k = n) as ->.
    { destruct (Nat.lt_ge_cases k n) as [L|G]; [exfalso|lia].
      destruct (retries_outcome script op 0 0 n pre Rs k L)
        as [H'|(response' & d' & H' & _ & D' & N')]; cbn [Nat.add] in H';
        rewrite H in H'; [discriminate|].
      injection H' as <-. rewrite D in D'. injection D' as <-. lia. }
    rewrite H in E. split; [|lia].
    inversion E as [ |? code v msg To Cd|? R' T'|? NR|? e RB DE'| |? d' RL D' N' F]; subst.
    + pose proof (tolerated_not_ratelimited _ _ _ _ _ To Cd). congruence.
    + congruence.
    + discriminate NR.
    + congruence.
    + rewrite D in D'. injection D' as <-. lia.
Qed.

Lemma negative_retry_after_raises_witness :
  run (replay [Failure (SlackApiError (rate_limit_response (Some "-1")));
               Success ok_response])
    (get_remote_files (VInt 0) (VInt 1609459200))
  = (Raise (ValueError "sleep length must be non-negative"),
     mkWorld 1 [ECall "files_remote_list"
                  [("from_ts", VInt 0); ("to_ts", VInt 1609459200)]]).
Proof.
  apply (negative_retry_after_raises
           (replay [Failure (SlackApiError (rate_limit_response (Some "-1")));
                    Success ok_response])
           (get_remote_files (VInt 0) (VInt 1609459200))
           (rate_limit_response (Some "-1")) (-1)); try reflexivity.
  unfold KTIME_SEC_MAX. lia.
Defined.

(** X4: whatever the remote service answers, a call ends, with a value or
    with an exception, after at least one and at most four remote calls. *)
Theorem call_ends_within_four script op :
  ((exists v, fst (run script op) = Return v) \/
   (exists e, fst (run script op) = Raise e)) /\
  1 <= calls (snd (run script op)) <= BACKOFF_MAX_TRIES.
Proof.
  split.
  - pose proof (call_total script op init) as T. unfold run.
    destruct (fst (call script op init)) as [v|e|]; [eauto|eauto|contradiction].
  - pose proof (call_count script op init) as H. unfold run. world_simpl. lia.
Qed.

Lemma request_not_backoff op : is_backoff (request op) = false.
Proof. destruct op; reflexivity. Qed.

Lemma retries_requests script op k t n pre :
  retries script op k t n pre ->
  List.filter is_call pre = List.repeat (request op) n.
Proof.
  induction 1; cbn [List.filter is_call List.repeat]; rewrite ?request_is_call;
    congruence.
Qed.

Lemma retries_backoffs script op k t n pre :
  retries script op k t n pre ->
  List.filter is_backoff pre
  = List.map (fun i => EOnBackoff (S i) BACKOFF_INTERVAL) (List.seq t n).
Proof.
  induction 1; cbn [List.filter is_backoff List.seq List.map];
    rewrite ?request_not_backoff; congruence.
Qed.

Lemma ending_quiet op t o res tail :
  ending op t o res tail ->
  List.filter is_call tail = [] /\ List.filter is_backoff tail = [].
Proof. destruct 1; split; reflexivity. Qed.

(** X5: every remote call of one call is the same request: a retry sends
    the method's remote operation again with the same arguments. *)
Theorem retries_repeat_the_request script op :
  requests (snd (run script op))
  = List.repeat (request op) (calls (snd (run script op))).
Proof.
  unfold run, requests.
  destruct (call_shape script op init) as (n & pre & tail & R & E & T & C & _).
  rewrite T, C. world_simpl. cbn [app Nat.add].
  rewrite List.filter_app. cbn [List.filter]. rewrite request_is_call.
  rewrite (retries_requests _ _ _ _ _ _ R), (proj1 (ending_quiet _ _ _ _ _ E)).
  symmetry. apply (List.repeat_cons n (request op)).
Qed.

(** X6: between two consecutive remote calls of one call backoff announces
    exactly one wait, always of the fixed interval: a call with n+1 remote
    calls carries the backoff records of tries 1 to n, and no other. *)
Theorem one_fixed_wait_per_retry script op :
  backoffs (snd (run script op))
  = List.map (fun i => EOnBackoff (S i) BACKOFF_INTERVAL)
      (List.seq 0 (calls (snd (run script op)) - 1)).
Proof.
  unfold run, backoffs.
  destruct (call_shape script op init) as (n & pre & tail & R & E & T & C & _).
  rewrite T, C. world_simpl. cbn [app Nat.add].
  rewrite List.filter_app. cbn [List.filter]. rewrite request_not_backoff.
  rewrite (retries_backoffs _ _ _ _ _ _ R), (proj2 (ending_quiet _ _ _ _ _ E)).
  rewrite app_nil_r. replace (S n - 1) with n by lia. reflexivity.
Qed.

(** X7: a call logs at most one warning, and only when its method absorbed
    an error code, in which case the call returned the substitute value;
    the nine methods that absorb nothing never log a warning. *)
Theorem warning_only_when_absorbing script op :
  warnings (snd (run script op)) = [] \/
  exists code v msg,
    tolerated op = Some (code, v, msg) /\
    warnings (snd (run script op)) = [EWarning msg] /\
    fst (run script op) = Return v.
Proof.
  unfold run, warnings.
  destruct (call_shape script op init) as (n & pre & tail & R & E & T & C & _).
  rewrite T. world_simpl. cbn [app].
  rewrite List.filter_app, (retries_no_warning _ _ _ _ _ _ R). cbn [List.filter app].
  rewrite request_not_warning.
  inversion E as [ |? code v msg To Cd| | | | | ]; subst; try (left; reflexivity).
  right. exists code, v, msg. auto.
Qed.

Lemma other_code_not_ratelimited response code :
  value_eq_str (error_code response) code = true ->
  code <> "ratelimited" ->
  ratelimited response = false.
Proof.
  unfold ratelimited, value_eq_str.
  destruct (error_code response) as [| | |c| |]; try discriminate.
  intros H N. apply bool_decide_eq_true in H. subst c.
  apply bool_decide_eq_false. exact N.
Qed.

(** X8: the absorbed error codes belong to their methods only.
    "fetch_members_failed" is propagated unchanged by every method but
    [get_channel_members], and "not_in_channel" by every method but
    [get_messages]: one remote call, nothing slept, nothing logged. *)
Theorem absorbed_code_is_method_specific script op response :
  script 0 = Failure (SlackApiError response) ->
  (value_eq_str (error_code response) "fetch_members_failed" = true ->
   (forall channel, op <> get_channel_members channel) ->
   run script op = (Raise (SlackApiError response), mkWorld 1 [request op])) /\
  (value_eq_str (error_code response) "not_in_channel" = true ->
   (forall channel oldest latest, op <> get_messages channel oldest latest) ->
   run script op = (Raise (SlackApiError response), mkWorld 1 [request op])).
Proof.
  intros H.
  assert (V : forall c, value_eq_str (error_code response) c = true ->
                        error_code response = VStr c).
  { intros c. unfold value_eq_str. destruct (error_code response); try discriminate.
    intros E. apply bool_decide_eq_true in E. congruence. }
  split; intros Cd Hop; unfold run; rewrite call_rounds;
    rewrite (round_other_code script op response 3 0 init H); try reflexivity.
  - apply (other_code_not_ratelimited _ _ Cd). discriminate.
  - destruct op; try reflexivity.
    + exfalso. eapply Hop. reflexivity.
    + unfold tolerates, tolerated. rewrite (V _ Cd). reflexivity.
  - apply (other_code_not_ratelimited _ _ Cd). discriminate.
  - destruct op; try reflexivity.
    + unfold tolerates, tolerated. rewrite (V _ Cd). reflexivity.
    + exfalso. eapply Hop. reflexivity.
Qed.

Lemma absorbed_code_is_method_specific_witness :
  run (replay [Failure (SlackApiError (error_response "not_in_channel"))])
    (get_channel_members "C024BE91L")
  = (Raise (SlackApiError (error_response "not_in_channel")),
     mkWorld 1 [ECall "conversations_members" [("channel", VStr "C024BE91L")]]).
Proof.
  apply (proj2 (absorbed_code_is_method_specific
                  (replay [Failure (SlackApiError (error_response "not_in_channel"))])
                  (get_channel_members "C024BE91L") (error_response "not_in_channel")
                  eq_refl)).
  - reflexivity.
  - intros channel oldest latest H. discriminate H.
Defined.

(** X9: the client never wraps or invents an exception.  What a call raises
    is the failure of its last remote call, unchanged, or else what [int] or
    [time.sleep] raised inside [wait] on a rate-limit failure of the last
    remote call: a [ValueError], an [OverflowError] or an [OSError]. *)
Theorem raised_exception_origin script op e :
  fst (run script op) = Raise e ->
  script (calls (snd (run script op)) - 1) = Failure e \/
  exists response,
    script (calls (snd (run script op)) - 1) = Failure (SlackApiError response) /\
    ratelimited response = true /\
    is_delay_exception e = true.
Proof.
  unfold run. intros H.
  destruct (call_shape script op init) as (n & pre & tail & R & E & T & C & _).
  rewrite C. world_simpl. cbn [Nat.add] in *. replace (S n - 1) with n by lia.
  rewrite H in E.
  inversion E as [ | |? R' T' HS|? NR HS|response e' R' DE HS|F HS|? d R' D N F HS];
    subst; auto.
  right. exists response. split; [reflexivity|]. split; [assumption|].
  apply (delay_error_is_delay _ _ DE).
Qed.

Lemma raised_exception_origin_witness :
  replay [Failure (SlackApiError (rate_limit_response (Some "99999999999999999999")))]
    (calls (snd (run (replay [Failure (SlackApiError
                                         (rate_limit_response
                                            (Some "99999999999999999999")))])
                   get_teams)) - 1)
  = Failure (OverflowError "timestamp too large to convert to C _PyTime_t") \/
  exists response,
    replay [Failure (SlackApiError (rate_limit_response (Some "99999999999999999999")))]
      (calls (snd (run (replay [Failure (SlackApiError
                                           (rate_limit_response
                                              (Some "99999999999999999999")))])
                     get_teams)) - 1)
    = Failure (SlackApiError response) /\
    ratelimited response = true /\
    is_delay_exception (OverflowError "timestamp too large to convert to C _PyTime_t")
    = true.
Proof.
  apply (raised_exception_origin
           (replay [Failure (SlackApiError
                               (rate_limit_response (Some "99999999999999999999")))])
           get_teams (OverflowError "timestamp too large to convert to C _PyTime_t")).
  reflexivity.
Defined.

(** X10: a call returns a value in two ways only: its last remote call
    succeeded and the value is what the method makes of that result, or its
    last remote call failed with the code the method absorbs and the value
    is the method's substitute. *)
Theorem returned_value_origin script op v :
  fst (run script op) = Return v ->
  (exists r,
     script (calls (snd (run script op)) - 1) = Success r /\
     v = success_value op r) \/
  (exists response code msg,
     script (calls (snd (run script op)) - 1) = Failure (SlackApiError response) /\
     tolerated op = Some (code, v, msg) /\
     value_eq_str (error_code response) code = true).
Proof.
  unfold run. intros H.
  destruct (call_shape script op init) as (n & pre & tail & R & E & T & C & _).
  rewrite C. world_simpl. cbn [Nat.add] in *. replace (S n - 1) with n by lia.
  rewrite H in E.
  inversion E as [r HS|response code v' msg To Cd HS| | | | | ]; subst.
  - left. exists r. auto.
  - right. exists response, code, msg. auto.
Qed.

Lemma returned_value_origin_witness :
  (exists r,
     limited_once (calls (snd (run limited_once get_teams)) - 1) = Success r /\
     RResponse ok_response = success_value get_teams r) \/
  (exists response code msg,
     limited_once (calls (snd (run limited_once get_teams)) - 1)
     = Failure (SlackApiError response) /\
     tolerated get_teams = Some (code, RResponse ok_response, msg) /\
     value_eq_str (error_code response) code = true).
Proof.
  apply (returned_value_origin limited_once get_teams (RResponse ok_response)).
  reflexivity.
Defined.

(** ** Calls one after another *)

Lemma world_eq c1 c2 (t1 t2 : list event) :
  c1 = c2 -> t1 = t2 -> mkWorld c1 t1 = mkWorld c2 t2.
Proof. intros -> ->. reflexivity. Qed.

Ltac frame_eq :=
  unfold called, record; cbn [calls trace];
  apply world_eq; [lia | rewrite <- ?app_assoc, ?List.app_nil_r; cbn [app]; reflexivity].

(** Two runs of the retry loop that are given the same remote answers do
    the same, whatever the worlds they start in: same result, same number
    of remote calls, same events. *)
Lemma rounds_frame script1 script2 op fuel :
  forall tries w1 w2,
    (forall n, script1 (calls w1 + n) = script2 (calls w2 + n)) ->
    exists res dc l,
      backoff.retry (backoff.constant BACKOFF_INTERVAL) retryable BACKOFF_MAX_TRIES
        wait (body script1 op) fuel tries w1
      = (res, mkWorld (calls w1 + dc) (trace w1 ++ l)) /\
      backoff.retry (backoff.constant BACKOFF_INTERVAL) retryable BACKOFF_MAX_TRIES
        wait (body script2 op) fuel tries w2
      = (res, mkWorld (calls w2 + dc) (trace w2 ++ l)).
Proof.
  induction fuel as [|fuel IH]; intros tries w1 w2 H.
  { exists OutOfFuel, 0, []. cbn [backoff.retry].
    split; f_equal; [destruct w1|destruct w2]; frame_eq. }
  pose proof (H 0) as H0. rewrite !Nat.add_0_r in H0.
  assert (Hnext : forall e1 e2 e3 n,
            script1 (calls (record e3 (record e2 (record e1 (called op w1)))) + n)
            = script2 (calls (record e3 (record e2 (record e1 (called op w2)))) + n)).
  { intros e1 e2 e3 n. cbn [calls record called].
    replace (S (calls w1) + n) with (calls w1 + S n) by lia.
    replace (S (calls w2) + n) with (calls w2 + S n) by lia. apply H. }
  destruct (script1 (calls w1)) as [r|e] eqn:E1; symmetry in H0; rename H0 into E2.
  { exists (Return (success_value op r)), 1, [request op].
    rewrite (round_success _ _ _ _ _ _ E1), (round_success _ _ _ _ _ _ E2).
    split; f_equal; frame_eq. }
  destruct e as [response| |msg|msg|msg|name].
  - destruct (ratelimited response) eqn:R.
    + destruct (delay_error response) as [e|] eqn:DE.
      * exists (Raise e), 1, [request op].
        rewrite (round_bad_delay _ _ _ _ _ _ _ E1 R DE).
        rewrite (round_bad_delay _ _ _ _ _ _ _ E2 R DE).
        split; f_equal; frame_eq.
      * destruct (delay_none _ DE) as (d & D & N).
        rewrite (round_ratelimited _ _ _ _ _ _ _ E1 R D N).
        rewrite (round_ratelimited _ _ _ _ _ _ _ E2 R D N).
        destruct (Nat.eqb (S tries) BACKOFF_MAX_TRIES).
        -- exists (Raise (SlackApiError response)), 1,
             [request op; ESleep (inject_Z d); EOnGiveup (S tries)].
           split; f_equal; frame_eq.
        -- destruct (IH (S tries) _ _
                       (fun n => Hnext (ESleep (inject_Z d))
                                   (EOnBackoff (S tries) BACKOFF_INTERVAL)
                                   (ESleep BACKOFF_INTERVAL) n))
             as (res & dc & l & -> & ->).
           exists res, (S dc),
             (request op :: ESleep (inject_Z d)
                :: EOnBackoff (S tries) BACKOFF_INTERVAL
                :: ESleep BACKOFF_INTERVAL :: l).
           split; f_equal; frame_eq.
    + destruct (tolerates op (SlackApiError response)) eqn:T.
      * unfold tolerates in T. destruct (tolerated op) as [[[code v] msg]|] eqn:To;
          [|discriminate].
        exists (Return v), 1, [request op; EWarning msg].
        rewrite (round_tolerated _ _ _ _ _ _ _ _ _ E1 To T).
        rewrite (round_tolerated _ _ _ _ _ _ _ _ _ E2 To T).
        split; f_equal; frame_eq.
      * exists (Raise (SlackApiError response)), 1, [request op].
        rewrite (round_other_code _ _ _ _ _ _ E1 R T).
        rewrite (round_other_code _ _ _ _ _ _ E2 R T).
        split; f_equal; frame_eq.
  - rewrite (round_timeout _ _ _ _ _ E1), (round_timeout _ _ _ _ _ E2).
    destruct (Nat.eqb (S tries) BACKOFF_MAX_TRIES).
    + exists (Raise TimeoutError), 1, [request op; EOnGiveup (S tries)].
      split; f_equal; frame_eq.
    + assert (Hn : forall n,
                script1 (calls (record (ESleep BACKOFF_INTERVAL)
                                  (record (EOnBackoff (S tries) BACKOFF_INTERVAL)
                                     (called op w1))) + n)
                = script2 (calls (record (ESleep BACKOFF_INTERVAL)
                                    (record (EOnBackoff (S tries) BACKOFF_INTERVAL)
                                       (called op w2))) + n)).
      { intros n. exact (Hnext (ESleep 0) (EOnBackoff (S tries) BACKOFF_INTERVAL)
                           (ESleep BACKOFF_INTERVAL) n). }
      destruct (IH (S tries) _ _ Hn) as (res & dc & l & -> & ->).
      exists res, (S dc),
        (request op :: EOnBackoff (S tries) BACKOFF_INTERVAL
           :: ESleep BACKOFF_INTERVAL :: l).
      split; f_equal; frame_eq.
  - exists (Raise (ValueError msg)), 1, [request op].
    rewrite (round_uncaught _ _ _ _ _ _ E1 eq_refl), (round_uncaught _ _ _ _ _ _ E2 eq_refl).
    split; f_equal; frame_eq.
  - exists (Raise (OverflowError msg)), 1, [request op].
    rewrite (round_uncaught _ _ _ _ _ _ E1 eq_refl), (round_uncaught _ _ _ _ _ _ E2 eq_refl).
    split; f_equal; frame_eq.
  - exists (Raise (OSError msg)), 1, [request op].
    rewrite (round_uncaught _ _ _ _ _ _ E1 eq_refl), (round_uncaught _ _ _ _ _ _ E2 eq_refl).
    split; f_equal; frame_eq.
  - exists (Raise (OtherError name)), 1, [request op].
    rewrite (round_uncaught _ _ _ _ _ _ E1 eq_refl), (round_uncaught _ _ _ _ _ _ E2 eq_refl).
    split; f_equal; frame_eq.
Qed.

(** X11: tries are counted per call.  A call made in any world, for
    instance right after another call has used up its tries, does what a
    fresh call does against the answers the remote service has left: same
    result, and its remote calls and events are added to the world's. *)
Theorem call_is_local script op w :
  call script op w
  = (fst (run (shift script (calls w)) op),
     mkWorld (calls w + calls (snd (run (shift script (calls w)) op)))
             (trace w ++ trace (snd (run (shift script (calls w)) op)))).
Proof.
  destruct (rounds_frame script (shift script (calls w)) op BACKOFF_MAX_TRIES 0 w init)
    as (res & dc & l & E1 & E2).
  - intros n. reflexivity.
  - unfold run, call, decorated, backoff.on_exception. rewrite E1, E2. reflexivity.
Qed.

(** ** Rate limits and timeouts at any attempt *)

(** X13: timeouts and rate limits share the four tries.  When each of the
    first four remote calls fails with a timeout or with a rate limit whose
    delay is missing or an integer literal between 0 and 4294967, the call
    makes exactly four remote calls and raises the fourth failure. *)
Theorem mixed_failures_exhaust script op :
  (forall k, k < BACKOFF_MAX_TRIES ->
     script k = Failure TimeoutError \/
     exists response d,
       script k = Failure (SlackApiError response) /\
       ratelimited response = true /\ retry_after response = Some d /\
       (0 <= d <= SLEEP_SAFE)%Z) ->
  exists e,
    script 3 = Failure e /\
    fst (run script op) = Raise e /\
    calls (snd (run script op)) = BACKOFF_MAX_TRIES.
Proof.
  intros H. unfold run.
  destruct (call_shape script op init) as (n & pre & tail & Rs & E & T & C & B).
  world_simpl. change (0 + n) with n in E.
  assert (F : S n = BACKOFF_MAX_TRIES).
  { destruct (H n B) as [Ht|(response & d & Hr & R & D & N)].
    - rewrite Ht in E. inversion E; subst; [discriminate | assumption].
    - rewrite Hr in E. apply safe_delay in N.
      inversion E as [ |? code v msg To Cd|? R' T'|? NR|? e RB DE| |? d' RL D' N' F];
        subst.
      + pose proof (tolerated_not_ratelimited _ _ _ _ _ To Cd). congruence.
      + congruence.
      + discriminate NR.
      + rewrite (delay_ok _ _ D N) in DE. discriminate DE.
      + assumption. }
  assert (n = 3) as -> by (unfold BACKOFF_MAX_TRIES in F; lia).
  destruct (H 3 ltac:(unfold BACKOFF_MAX_TRIES; lia)) as [Ht|(response & d & Hr & R & D & N)].
  - exists TimeoutError. rewrite Ht in E. inversion E; subst; [discriminate|].
    repeat split; auto.
  - exists (SlackApiError response). rewrite Hr in E. apply safe_delay in N.
    inversion E as [ |? code v msg To Cd|? R' T'|? NR|? e RB DE| |? d' RL D' N' F'];
      subst.
    + pose proof (tolerated_not_ratelimited _ _ _ _ _ To Cd). congruence.
    + congruence.
    + discriminate NR.
    + rewrite (delay_ok _ _ D N) in DE. discriminate DE.
    + repeat split; auto.
Qed.

Lemma mixed_failures_exhaust_witness :
  exists e,
    replay [Failure TimeoutError;
            Failure (SlackApiError (rate_limit_response (Some "2")));
            Failure TimeoutError;
            Failure (SlackApiError (rate_limit_response None))] 3 = Failure e /\
    fst (run (replay [Failure TimeoutError;
                      Failure (SlackApiError (rate_limit_response (Some "2")));
                      Failure TimeoutError;
                      Failure (SlackApiError (rate_limit_response None))])
           (join_channel (VStr "C024BE91L"))) = Raise e /\
    calls (snd (run (replay [Failure TimeoutError;
                             Failure (SlackApiError (rate_limit_response (Some "2")));
                             Failure TimeoutError;
                             Failure (SlackApiError (rate_limit_response None))])
                  (join_channel (VStr "C024BE91L")))) = BACKOFF_MAX_TRIES.
Proof.
  apply (mixed_failures_exhaust
           (replay [Failure TimeoutError;
                    Failure (SlackApiError (rate_limit_response (Some "2")));
                    Failure TimeoutError;
                    Failure (SlackApiError (rate_limit_response None))])
           (join_channel (VStr "C024BE91L"))).
  intros k Hk. unfold BACKOFF_MAX_TRIES in Hk.
  destruct k as [|[|[|[|k]]]]; try lia.
  - left. reflexivity.
  - right. exists (rate_limit_response (Some "2")), 2%Z.
    repeat split; try reflexivity; unfold SLEEP_SAFE; lia.
  - left. reflexivity.
  - right. exists (rate_limit_response None), 0%Z.
    repeat split; try reflexivity; unfold SLEEP_SAFE; lia.
Defined.
